(** * FAL Blender add-on: dependency installer, credential store, mesh guard

    A shallow embedding of the two add-on modules
    [blender-script.py] and [fal_ai_image_to_3d/__init__.py].  Both
    modules carry the same text for the logging helpers,
    [FALPackageChecker], [get_api_key] and [set_api_key]; the second one
    adds [FALMeshProcessor].

    Python code is embedded as computations in a state-and-exception
    monad over a [World]: the registered scene properties, the process
    environment, the add-on preference table, the console, the windows
    whose areas get redraw tags, and a trace of the events that matter for
    ordering (subprocess start and exit, assignments to the install log). *)

From Stdlib Require Import ZArith QArith String Ascii List Lia.
From stdpp Require Import base option list gmap strings pretty.

Local Open Scope Z_scope.
Local Open Scope string_scope.
Local Open Scope list_scope.

(** ** Python exceptions *)

(** The classes that the modelled calls can raise.  All of them derive from
    [Exception]; [ModuleNotFoundError] is folded into [ImportError] and
    [FileNotFoundError], [PermissionError] into [OSError], as the handlers
    of the source never tell them apart. *)
Inductive exn_class : Type :=
  | ImportError
  | KeyError
  | AttributeError
  | IndexError
  | OSError
  | ValueError
  | UnicodeDecodeError
  | RuntimeError.

#[global] Instance exn_class_eq_dec : EqDecision exn_class :=
  ltac:(solve_decision).

(** An exception value: its class and the text that [str(e)] gives. *)
Record exn : Type := Exn { exn_cls : exn_class; exn_str : string }.

Inductive result (A : Type) : Type :=
  | Ok (a : A)
  | Raise (e : exn).
Arguments Ok {A} a.
Arguments Raise {A} e.

Definition is_ok {A} (r : result A) : bool :=
  match r with Ok _ => true | Raise _ => false end.

(** ** The scene property store *)

(** The properties that [register()] attaches to [bpy.types.Scene], with
    their Python types. *)
Record Scene : Type := mkScene {
  fal_api_key_input : string;
  fal_install_log : string;
  fal_debug_log : string;
  fal_install_success : bool;
  fal_install_in_progress : bool;
  fal_install_progress : Z;
  fal_install_pid : Z;
  fal_status_message : string
}.

(** The names [register()] defines, used by the [hasattr] probes. *)
Definition scene_properties : list string :=
  [ "fal_api_key_input"; "fal_install_log"; "fal_debug_log";
    "fal_install_success"; "fal_install_in_progress";
    "fal_install_progress"; "fal_install_pid"; "fal_status_message" ].

Definition hasattr_scene (name : string) : bool :=
  bool_decide (name ∈ scene_properties).

(** The scene right after [register()]: every property at its default
    (the debug-log default is the one of [blender-script.py]). *)
Definition registered_scene : Scene :=
  {| fal_api_key_input := "";
     fal_install_log := "";
     fal_debug_log := "[DEBUG] FAL Package Manager debug log initialized";
     fal_install_success := false;
     fal_install_in_progress := false;
     fal_install_progress := 0;
     fal_install_pid := -1;
     fal_status_message := "" |}.

(** [fal_install_progress] is an [IntProperty] with [min=0, max=100]: the
    host clamps every assigned value into that range. *)
Definition clamp_percentage (v : Z) : Z := Z.max 0 (Z.min 100 v).

(** ** The rest of the world *)

(** [FALAddonPreferences]: one string property. *)
Record AddonPreferences : Type := mkPrefs { api_key : string }.

(** A screen area: its type and how many redraw tags it has received. *)
Record Area : Type := mkArea { area_type : string; area_redraws : nat }.

(** Events whose order matters to readers of the install log. *)
Inductive Event : Type :=
  | ProcStarted (pid : Z)
  | ProcExited (returncode : Z)
  | LogAssigned (text : string).

#[global] Instance Event_eq_dec : EqDecision Event :=
  ltac:(solve_decision).

Record World : Type := mkWorld {
  scene : Scene;
  (** lines written by [print] *)
  stdout : list string;
  (** [os.environ] *)
  environ : gmap string string;
  (** [bpy.context.preferences.addons]: module name to add-on entry; the
      entry's [preferences] attribute is [None] when the add-on declares
      no preference class *)
  addons : gmap string (option AddonPreferences);
  (** [bpy.context.window_manager.windows], each with its screen areas *)
  windows : list (list Area);
  (** is [_monitor_installation] registered with [bpy.app.timers]? *)
  timer_registered : bool;
  (** worker threads started so far *)
  threads_started : nat;
  (** what operators passed to [self.report]: level and message *)
  reports : list (string * string);
  events : list Event
}.

Definition with_scene (f : Scene → Scene) (w : World) : World :=
  mkWorld (f (scene w)) (stdout w) (environ w) (addons w) (windows w)
          (timer_registered w) (threads_started w) (reports w) (events w).
Definition with_stdout (f : list string → list string) (w : World) : World :=
  mkWorld (scene w) (f (stdout w)) (environ w) (addons w) (windows w)
          (timer_registered w) (threads_started w) (reports w) (events w).
Definition with_environ (f : gmap string string → gmap string string)
    (w : World) : World :=
  mkWorld (scene w) (stdout w) (f (environ w)) (addons w) (windows w)
          (timer_registered w) (threads_started w) (reports w) (events w).
Definition with_addons
    (f : gmap string (option AddonPreferences) →
         gmap string (option AddonPreferences)) (w : World) : World :=
  mkWorld (scene w) (stdout w) (environ w) (f (addons w)) (windows w)
          (timer_registered w) (threads_started w) (reports w) (events w).
Definition with_windows (f : list (list Area) → list (list Area))
    (w : World) : World :=
  mkWorld (scene w) (stdout w) (environ w) (addons w) (f (windows w))
          (timer_registered w) (threads_started w) (reports w) (events w).
Definition with_timer (b : bool) (w : World) : World :=
  mkWorld (scene w) (stdout w) (environ w) (addons w) (windows w)
          b (threads_started w) (reports w) (events w).
Definition with_threads (f : nat → nat) (w : World) : World :=
  mkWorld (scene w) (stdout w) (environ w) (addons w) (windows w)
          (timer_registered w) (f (threads_started w)) (reports w) (events w).
Definition with_reports (f : list (string * string) → list (string * string))
    (w : World) : World :=
  mkWorld (scene w) (stdout w) (environ w) (addons w) (windows w)
          (timer_registered w) (threads_started w) (f (reports w)) (events w).
Definition with_events (f : list Event → list Event) (w : World) : World :=
  mkWorld (scene w) (stdout w) (environ w) (addons w) (windows w)
          (timer_registered w) (threads_started w) (reports w) (f (events w)).

(** ** The state-and-exception monad *)

(** A computation reads and updates a state and either returns a value or
    raises; what it wrote before raising stays written. *)
Definition ST (S A : Type) : Type := S → result A * S.

#[global] Instance ST_ret {S} : MRet (ST S) := λ A a s, (Ok a, s).
#[global] Instance ST_bind {S} : MBind (ST S) := λ A B f m s,
  match m s with
  | (Ok a, s') => f a s'
  | (Raise e, s') => (Raise e, s')
  end.

Definition raise {S A} (e : exn) : ST S A := λ s, (Raise e, s).

(** [try: body except <classes matched by catches> as e: handler e]. *)
Definition try_except {S A} (body : ST S A) (catches : exn → bool)
    (handler : exn → ST S A) : ST S A := λ s,
  match body s with
  | (Ok a, s') => (Ok a, s')
  | (Raise e, s') => if catches e then handler e s' else (Raise e, s')
  end.

(** A bare [except:] and [except Exception] catch every modelled class. *)
Definition any_exception (e : exn) : bool := true.
Definition of_classes (cs : list exn_class) (e : exn) : bool :=
  bool_decide (exn_cls e ∈ cs).

Definition get {S A} (f : S → A) : ST S A := λ s, (Ok (f s), s).
Definition modify {S} (f : S → S) : ST S unit := λ s, (Ok tt, f s).

(** Lift the outcome of a host call into the monad. *)
Definition host {S A} (r : result A) : ST S A := λ s, (r, s).

Definition exec {S A} (m : ST S A) (s : S) : S := snd (m s).
Definition eval {S A} (m : ST S A) (s : S) : result A := fst (m s).

(** The add-on's computations run over the [World]. *)
Abbreviation M := (ST World).

(** ** Assignments to scene properties *)

(** A [StringProperty] is stored by the host as a C string: of the value
    assigned to it, the property keeps the part before the first NUL
    character.  The cut is written out for the properties that receive
    text from outside the add-on, the install log (what the subprocess
    printed) and the API key; the messages of the logging helpers are
    taken as they are. *)
Fixpoint until_nul (s : string) : string :=
  match s with
  | EmptyString => EmptyString
  | String c rest =>
      if Ascii.eqb Ascii.zero c then EmptyString
      else String c (until_nul rest)
  end.

Definition scene_set_install_log (v : string) (s : Scene) : Scene :=
  mkScene (fal_api_key_input s) (until_nul v) (fal_debug_log s)
          (fal_install_success s)
          (fal_install_in_progress s) (fal_install_progress s)
          (fal_install_pid s) (fal_status_message s).
Definition scene_set_debug_log (v : string) (s : Scene) : Scene :=
  mkScene (fal_api_key_input s) (fal_install_log s) v (fal_install_success s)
          (fal_install_in_progress s) (fal_install_progress s)
          (fal_install_pid s) (fal_status_message s).
Definition scene_set_install_success (v : bool) (s : Scene) : Scene :=
  mkScene (fal_api_key_input s) (fal_install_log s) (fal_debug_log s) v
          (fal_install_in_progress s) (fal_install_progress s)
          (fal_install_pid s) (fal_status_message s).
Definition scene_set_install_in_progress (v : bool) (s : Scene) : Scene :=
  mkScene (fal_api_key_input s) (fal_install_log s) (fal_debug_log s)
          (fal_install_success s) v (fal_install_progress s)
          (fal_install_pid s) (fal_status_message s).
Definition scene_set_install_progress (v : Z) (s : Scene) : Scene :=
  mkScene (fal_api_key_input s) (fal_install_log s) (fal_debug_log s)
          (fal_install_success s) (fal_install_in_progress s)
          (clamp_percentage v) (fal_install_pid s) (fal_status_message s).
Definition scene_set_install_pid (v : Z) (s : Scene) : Scene :=
  mkScene (fal_api_key_input s) (fal_install_log s) (fal_debug_log s)
          (fal_install_success s) (fal_install_in_progress s)
          (fal_install_progress s) v (fal_status_message s).
Definition scene_set_status_message (v : string) (s : Scene) : Scene :=
  mkScene (fal_api_key_input s) (fal_install_log s) (fal_debug_log s)
          (fal_install_success s) (fal_install_in_progress s)
          (fal_install_progress s) (fal_install_pid s) v.

(** [bpy.context.scene.<prop>] read. *)
Definition scene_get {A} (f : Scene → A) : M A := get (λ w, f (scene w)).

(** [bpy.context.scene.<prop> = v].  The assignment to the install log
    also leaves its mark in the event trace: the text that was assigned,
    of which the property keeps [until_nul]. *)
Definition assign_install_log (v : string) : M unit :=
  modify (λ w, with_events (λ t, t ++ [LogAssigned v])
                 (with_scene (scene_set_install_log v) w)).
Definition assign_debug_log (v : string) : M unit :=
  modify (with_scene (scene_set_debug_log v)).
Definition assign_install_success (v : bool) : M unit :=
  modify (with_scene (scene_set_install_success v)).
Definition assign_install_in_progress (v : bool) : M unit :=
  modify (with_scene (scene_set_install_in_progress v)).
Definition assign_install_progress (v : Z) : M unit :=
  modify (with_scene (scene_set_install_progress v)).
Definition assign_install_pid (v : Z) : M unit :=
  modify (with_scene (scene_set_install_pid v)).
Definition assign_status_message (v : string) : M unit :=
  modify (with_scene (scene_set_status_message v)).

(** ** Logging helpers *)

(** The line feed of the f-strings. *)
Definition LF : string := String (ascii_of_nat 10) EmptyString.

Definition print (line : string) : M unit :=
  modify (with_stdout (λ out, out ++ [line])).

(** The block shared by the three helpers:
    [try: if hasattr(scene, "fal_debug_log"): scene.fal_debug_log =
    f"{current_log}\n[<TAG>] {message}" except: pass]. *)
Definition store_debug_line (tag message : string) : M unit :=
  try_except
    (if hasattr_scene "fal_debug_log" then
       current_log ← scene_get fal_debug_log;
       assign_debug_log (current_log +:+ LF +:+ "[" +:+ tag +:+ "] " +:+ message)
     else mret tt)
    any_exception (λ _, mret tt).

Definition log_debug (message : string) : M unit :=
  print ("[FAL_DEBUG] " +:+ message);;
  store_debug_line "DEBUG" message.

Definition log_info (message : string) : M unit :=
  print ("[FAL_INFO] " +:+ message);;
  store_debug_line "INFO" message;;
  try_except (assign_status_message message) any_exception (λ _, mret tt).

Definition log_error (message : string) : M unit :=
  print ("[FAL_ERROR] " +:+ message);;
  store_debug_line "ERROR" message;;
  try_except (assign_status_message ("ERROR: " +:+ message))
             any_exception (λ _, mret tt).

(** ** What the host answers *)

(** The outcome of every call that leaves the add-on during one run of the
    installer worker, and of [import fal].  A call that can fail answers
    with a [result]; the fields are named after the calls. *)
Record Host : Type := mkHost {
  (** [import fal], then [fal.__file__] *)
  import_fal : result string;
  (** [tempfile.NamedTemporaryFile(delete=False, mode='w+', suffix='.txt')],
      then [.name] *)
  NamedTemporaryFile : result string;
  (** [site.getsitepackages()] *)
  getsitepackages : list string;
  (** [sys.executable] *)
  executable : string;
  (** [open(log_path, 'w')] *)
  open_w : result unit;
  (** [subprocess.Popen(cmd, ...)], then [.pid] *)
  Popen : result Z;
  (** [process.returncode] once [process.wait()] has returned *)
  returncode : Z;
  (** [open(log_path, 'r')] *)
  open_r : result unit;
  (** [log_file.read()]: what the subprocess wrote to the capture file *)
  read : result string;
  (** [os.unlink(log_path)] *)
  unlink : result unit
}.

(** [xs[0]] *)
Definition index0 (xs : list string) : M string :=
  match xs with
  | x :: _ => mret x
  | [] => raise (Exn IndexError "list index out of range")
  end.

(** [str(n)] for an int, [len(s)] for a string. *)
Definition str_int (n : Z) : string := pretty n.
Definition len (s : string) : Z := Z.of_nat (String.length s).

Definition emit (e : Event) : M unit := modify (with_events (λ t, t ++ [e])).

(** The loop that both branches of the timer callback run:
    every [VIEW_3D] area of every window gets [tag_redraw()]. *)
Definition tag_redraw (a : Area) : Area :=
  mkArea (area_type a) (S (area_redraws a)).
Definition redraw_view3d : M unit :=
  modify (with_windows
    (map (map (λ a, if String.eqb (area_type a) "VIEW_3D"
                    then tag_redraw a else a)))).

(** ** [FALPackageChecker] *)

Section PackageChecker.
Variable h : Host.

Definition is_package_installed : M bool :=
  log_debug "Checking if fal package is installed...";;
  try_except
    (file ← host (import_fal h);
     log_debug ("FAL package found: " +:+ file);;
     mret true)
    (of_classes [ImportError])
    (λ e, log_debug ("FAL package not found: " +:+ exn_str e);;
          mret false).

(** The thread body.  [process.wait()] blocks until the subprocess
    exits; the embedding describes the runs in which it returns. *)
Definition _install_process : M unit :=
  log_debug "Installation thread started";;
  log_path ← host (NamedTemporaryFile h);
  log_debug ("Created temporary log file: " +:+ log_path);;
  site_packages ← index0 (getsitepackages h);
  let python_exe := executable h in
  log_debug ("Using Python executable: " +:+ python_exe);;
  log_debug ("Installing to site-packages: " +:+ site_packages);;
  let cmd := [python_exe; "-m"; "pip"; "install"; "fal"; "--target";
              site_packages; "--verbose"] in
  log_debug ("Running command: " +:+ String.concat " " cmd);;
  try_except
    (host (open_w h);;
     pid ← host (Popen h);
     emit (ProcStarted pid);;
     assign_install_pid pid;;
     log_debug ("Started pip process with PID: " +:+ str_int pid);;
     emit (ProcExited (returncode h));;
     log_debug ("Pip process completed with return code: "
                +:+ str_int (returncode h));;
     let success := bool_decide (returncode h = 0) in
     host (open_r h);;
     output ← host (read h);
     log_debug ("Captured " +:+ str_int (len output)
                +:+ " bytes of log output");;
     assign_install_log output;;
     assign_install_success success;;
     if success
     then log_info "FAL package installation completed successfully!"
     else log_error ("FAL package installation failed with code "
                     +:+ str_int (returncode h)))
    any_exception
    (λ e,
       let error_msg := "Exception during installation: " +:+ exn_str e in
       log_error error_msg;;
       assign_install_log error_msg;;
       assign_install_success false);;
  assign_install_in_progress false;;
  ok ← scene_get fal_install_success;
  assign_install_progress (if (ok : bool) then 100 else 0);;
  try_except
    (host (unlink h);;
     log_debug ("Removed temporary log file: " +:+ log_path))
    any_exception
    (λ e, log_debug ("Failed to remove temp file: " +:+ exn_str e)).

(** Starts the worker thread and the timer and returns at once; the
    thread body runs concurrently, so it is not run here.  The value
    returned stands for the thread object: the number of the thread. *)
Definition install_package : M nat :=
  log_debug "Starting FAL package installation process";;
  assign_install_progress 0;;
  assign_install_in_progress true;;
  assign_install_log "";;
  assign_install_success false;;
  modify (with_threads S);;
  install_thread ← get threads_started;
  registered ← get timer_registered;
  (if negb registered then modify (with_timer true) else mret tt);;
  log_info "Installing FAL package... This may take a moment.";;
  mret install_thread.

(** The timer callback: [None] stops the timer, a number of seconds
    asks for the next call after that delay. *)
Definition _monitor_installation : M (option Q) :=
  in_progress ← scene_get fal_install_in_progress;
  if negb in_progress then
    log_debug "Installation monitoring complete";;
    redraw_view3d;;
    mret None
  else
    current_progress ← scene_get fal_install_progress;
    (if bool_decide (current_progress < 90) then
       p ← scene_get fal_install_progress;
       assign_install_progress (p + 1)
     else mret tt);;
    redraw_view3d;;
    mret (Some 0.2%Q).

(** ** [FAL_OT_InstallPackage.execute] *)

Inductive op_result : Type := FINISHED | CANCELLED.

Definition report (level message : string) : M unit :=
  modify (with_reports (λ r, r ++ [(level, message)])).

Definition FAL_OT_InstallPackage_execute : M op_result :=
  log_debug "Install package operator executed";;
  in_progress ← (if hasattr_scene "fal_install_in_progress"
                 then scene_get fal_install_in_progress
                 else mret false);
  if (in_progress : bool) then
    report "WARNING" "Installation already in progress";;
    log_info "Installation already in progress";;
    mret CANCELLED
  else
    report "INFO" "Installing FAL package... This may take a moment.";;
    install_package;;
    mret FINISHED.

End PackageChecker.

(** ** The API key: [get_api_key], [set_api_key] *)

Section Credential.
(** [__name__], the key of this add-on in the preference table. *)
Variable module_name : string.

(** The double quote of the host's message. *)
Definition DQ : string := String (ascii_of_nat 34) EmptyString.

(** What the add-on table raises for a module without an entry.  The
    table is a [bpy_prop_collection], not a dict: its message names the
    collection, and [str()] of a [KeyError] is the [repr] of its
    message, hence the quotes around it. *)
Definition no_addon_entry : exn :=
  Exn KeyError ("'bpy_prop_collection[key]: key " +:+ DQ +:+ module_name
                +:+ DQ +:+ " not found'").

(** [bpy.context.preferences.addons[__name__].preferences]: [KeyError]
    when the add-on has no entry.  An entry whose [preferences] is
    [None] is found here and fails at the attribute access. *)
Definition addon_preferences : M (option AddonPreferences) :=
  table ← get addons;
  match table !! module_name with
  | Some entry => mret entry
  | None => raise no_addon_entry
  end.

Definition no_api_key_attribute : exn :=
  Exn AttributeError "'NoneType' object has no attribute 'api_key'".

(** [prefs.api_key] *)
Definition prefs_api_key (prefs : option AddonPreferences) : M string :=
  match prefs with
  | Some p => mret (api_key p)
  | None => raise no_api_key_attribute
  end.

(** [prefs.api_key = value]: [prefs] aliases the entry of the table, and
    [api_key] is a [StringProperty], which keeps [until_nul value]. *)
Definition assign_prefs_api_key (prefs : option AddonPreferences)
    (value : string) : M unit :=
  match prefs with
  | Some _ =>
      modify (with_addons <[module_name := Some (mkPrefs (until_nul value))]>)
  | None => raise no_api_key_attribute
  end.

(** [os.environ.get(key, default)] *)
Definition environ_get (key fallback : string) : M string :=
  env ← get environ;
  mret (default fallback (env !! key)).

(** [os.environ[key] = value]: the platform refuses a value with an
    embedded NUL ([ValueError: embedded null byte]).  A caller can pass
    such a value to [set_api_key]; the update-key operator cannot, as it
    passes what a scene string property holds. *)
Definition has_nul (value : string) : bool :=
  existsb (Ascii.eqb Ascii.zero) (list_ascii_of_string value).

Definition environ_set (key value : string) : M unit :=
  if has_nul value
  then raise (Exn ValueError "embedded null byte")
  else modify (with_environ <[key := value]>).

(** A string is truthy when it is not empty. *)
Definition truthy (s : string) : bool := negb (String.eqb s "").

Definition get_api_key : M string :=
  log_debug "Getting API key";;
  found ← try_except
    (prefs ← addon_preferences;
     key ← prefs_api_key prefs;
     if truthy key then
       log_debug "API key found in addon preferences";;
       mret (Some key)
     else mret None)
    (of_classes [KeyError; AttributeError])
    (λ e, log_debug ("Could not get API key from preferences: "
                     +:+ exn_str e);;
          mret None);
  match found with
  | Some key => mret key
  | None =>
    try_except
      (key ← environ_get "FAL_KEY" "";
       (if truthy key
        then log_debug "API key found in environment variable"
        else log_debug "No API key found in environment variable");;
       mret key)
      any_exception
      (λ e, log_debug ("Error accessing environment variable: "
                       +:+ exn_str e);;
            mret "")
  end.

Definition set_api_key (value : string) : M bool :=
  log_debug "Setting API key";;
  try_except
    (prefs ← addon_preferences;
     assign_prefs_api_key prefs value;;
     log_debug "API key saved to addon preferences")
    (of_classes [KeyError; AttributeError])
    (λ e, log_debug ("Could not save API key to preferences: "
                     +:+ exn_str e));;
  saved ← try_except
    (environ_set "FAL_KEY" value;;
     log_debug "API key set as environment variable";;
     mret true)
    any_exception
    (λ e, log_error ("Error setting FAL_KEY environment variable: "
                     +:+ exn_str e);;
          mret false);
  if (saved : bool) then mret true else mret false.

End Credential.

(** ** [FALMeshProcessor] *)

(** The 3D scene belongs to the host: its state and the operators that
    [process_mesh] calls are parameters, each one free to change the state
    and to raise. *)
Section MeshProcessor.
(** what [bpy.data] and the context hold *)
Variable Blend : Type.
(** a reference to an object *)
Variable Obj : Type.
(** an edit-mesh handle *)
Variable BMesh : Type.

(** [obj.type] *)
Variable obj_type : Obj → Blend → string.
(** [bpy.ops.object.mode_set(mode=...)] *)
Variable object_mode_set : string → ST Blend unit.
(** [bmesh.from_edit_mesh(obj.data)] *)
Variable from_edit_mesh : Obj → ST Blend BMesh.
(** [bmesh.ops.remove_doubles(bm, verts=bm.verts, dist=...)] *)
Variable remove_doubles : BMesh → Q → ST Blend unit.
(** [bmesh.update_edit_mesh(obj.data)] *)
Variable update_edit_mesh : Obj → ST Blend unit.
(** [bpy.ops.object.origin_set(type=..., center=...)] *)
Variable object_origin_set : string → string → ST Blend unit.
(** [bpy.ops.object.transform_apply(location=..., rotation=..., scale=...)] *)
Variable object_transform_apply : bool → bool → bool → ST Blend unit.
(** [obj.location.z = v] *)
Variable assign_location_z : Obj → Q → ST Blend unit.

Definition process_mesh (obj : Obj) : ST Blend unit :=
  type ← get (obj_type obj);
  if negb (String.eqb type "MESH") then mret tt
  else
    object_mode_set "EDIT";;
    bm ← from_edit_mesh obj;
    remove_doubles bm 0.0001%Q;;
    update_edit_mesh obj;;
    object_mode_set "OBJECT";;
    object_origin_set "ORIGIN_GEOMETRY" "BOUNDS";;
    object_transform_apply true true true;;
    assign_location_z obj 0%Q.

End MeshProcessor.

(** ** The installation state and its observers *)

(** The five fields that the specification calls [InstallationState]. *)
Record InstallationState : Type := mkInstall {
  progressPercent : Z;
  inProgress : bool;
  log : string;
  success : bool;
  processId : Z
}.

Definition installation_state (w : World) : InstallationState :=
  {| progressPercent := fal_install_progress (scene w);
     inProgress := fal_install_in_progress (scene w);
     log := fal_install_log (scene w);
     success := fal_install_success (scene w);
     processId := fal_install_pid (scene w) |}.

(** What the three logging helpers do to the world. *)
Definition debug_line (tag message : string) (s : Scene) : Scene :=
  scene_set_debug_log
    (fal_debug_log s +:+ LF +:+ "[" +:+ tag +:+ "] " +:+ message) s.

Definition debug_logged (message : string) (w : World) : World :=
  with_scene (debug_line "DEBUG" message)
    (with_stdout (λ out, out ++ ["[FAL_DEBUG] " +:+ message]) w).

Definition info_logged (message : string) (w : World) : World :=
  with_scene (scene_set_status_message message)
    (with_scene (debug_line "INFO" message)
      (with_stdout (λ out, out ++ ["[FAL_INFO] " +:+ message]) w)).

Definition error_logged (message : string) (w : World) : World :=
  with_scene (scene_set_status_message ("ERROR: " +:+ message))
    (with_scene (debug_line "ERROR" message)
      (with_stdout (λ out, out ++ ["[FAL_ERROR] " +:+ message]) w)).

(** The part of the worker before its [try]: the capture file and the
    first site-packages directory. *)
Definition setup_outcome (h : Host) : result (string * string) :=
  match NamedTemporaryFile h with
  | Raise e => Raise e
  | Ok log_path =>
    match getsitepackages h with
    | [] => Raise (Exn IndexError "list index out of range")
    | site_packages :: _ => Ok (log_path, site_packages)
    end
  end.

(** The host calls inside the worker's [try], in program order: the
    captured output when none of them raises, else the first exception. *)
Definition try_outcome (h : Host) : result string :=
  match open_w h with
  | Raise e => Raise e
  | Ok _ =>
    match Popen h with
    | Raise e => Raise e
    | Ok _ =>
      match open_r h with
      | Raise e => Raise e
      | Ok _ => read h
      end
    end
  end.

(** What a completed run of the worker leaves behind, read off the host's
    answers: the text assigned to the install log, the success flag, the
    process id and the events. *)
Definition caught_text (e : exn) : string :=
  "Exception during installation: " +:+ exn_str e.

Definition worker_log (h : Host) : string :=
  match try_outcome h with
  | Ok output => output
  | Raise e => caught_text e
  end.

Definition worker_success (h : Host) : bool :=
  is_ok (try_outcome h) && bool_decide (returncode h = 0).

Definition worker_pid (h : Host) (before : Z) : Z :=
  match open_w h, Popen h with
  | Ok _, Ok pid => pid
  | _, _ => before
  end.

Definition worker_events (h : Host) : list Event :=
  match open_w h, Popen h with
  | Ok _, Ok pid => [ProcStarted pid; ProcExited (returncode h)]
  | _, _ => []
  end ++ [LogAssigned (worker_log h)].

(** The events that one run of the worker adds to the trace. *)
Definition worker_trace (h : Host) (w : World) : list Event :=
  drop (length (events w)) (events (exec (_install_process h) w)).

(** The texts assigned to the install log, in order. *)
Fixpoint log_writes (t : list Event) : list string :=
  match t with
  | [] => []
  | LogAssigned text :: t' => text :: log_writes t'
  | _ :: t' => log_writes t'
  end.

(** No assignment to the install log falls between the start of the
    subprocess and its exit. *)
Fixpoint quiet_while_running (running : bool) (t : list Event) : bool :=
  match t with
  | [] => true
  | ProcStarted _ :: t' => quiet_while_running true t'
  | ProcExited _ :: t' => quiet_while_running false t'
  | LogAssigned _ :: t' => negb running && quiet_while_running running t'
  end.

(** Every assignment to the install log comes after a subprocess exit. *)
Fixpoint exited_before_write (exited : bool) (t : list Event) : bool :=
  match t with
  | [] => true
  | ProcStarted _ :: t' => exited_before_write exited t'
  | ProcExited _ :: t' => exited_before_write true t'
  | LogAssigned _ :: t' => exited && exited_before_write exited t'
  end.

(** The value a reader of the install log sees after the events [t],
    when it held [init] before them. *)
Definition log_after (init : string) (t : list Event) : string :=
  List.last (log_writes t) init.

(** The install log is written exactly once, after the subprocess has
    exited, with what the subprocess wrote. *)
Definition log_written_once_after_exit (h : Host) (w : World) : Prop :=
  let t := worker_trace h w in
  exited_before_write false t = true ∧
  ∃ output, read h = Ok output ∧ log_writes t = [output].

(** [n] calls of the timer callback in a row.  The callback runs on the
    host's event loop while the worker waits for the subprocess on its
    own thread; each call of the callback is taken as one step, and the
    worker's run as one step after them. *)
Definition polls (n : nat) (w : World) : World :=
  Nat.iter n (exec _monitor_installation) w.

(** The key held by the preference field of add-on [name], if the add-on
    has one. *)
Definition stored_preference (name : string) (w : World) : option string :=
  entry ← addons w !! name; api_key <$> entry.

(** The value is in the preference field and in the environment. *)
Definition written_to_both (name value : string) (w : World) : Prop :=
  stored_preference name w = Some value ∧
  environ w !! "FAL_KEY" = Some value.

(** ** Sample hosts and worlds *)

Definition fresh_world : World :=
  {| scene := registered_scene;
     stdout := [];
     environ := ∅;
     addons := ∅;
     windows := [[mkArea "VIEW_3D" 0; mkArea "TEXT_EDITOR" 0]];
     timer_registered := false;
     threads_started := 0;
     reports := [];
     events := [] |}.

(** A key with a NUL character in it: [ab], NUL, [cd]. *)
Definition key_with_nul : string := "ab" +:+ String Ascii.zero "cd".

(** The world in which the add-on is enabled under its module name. *)
Definition enabled_world : World :=
  with_addons <["fal_ai_image_to_3d" := Some (mkPrefs "")]> fresh_world.

(** The world right after [install_package()] returned. *)
Definition started_world : World := exec install_package fresh_world.

(** pip installs the package. *)
Definition host_success : Host :=
  {| import_fal := Raise (Exn ImportError "No module named 'fal'");
     NamedTemporaryFile := Ok "/tmp/tmpk3x9w2.txt";
     getsitepackages := ["/blender/python/lib/site-packages"];
     executable := "/blender/python/bin/python";
     open_w := Ok tt;
     Popen := Ok 4242;
     returncode := 0;
     open_r := Ok tt;
     read := Ok "Successfully installed fal-1.0";
     unlink := Ok tt |}.

(** pip exits with code 1. *)
Definition host_pip_fails : Host :=
  {| import_fal := import_fal host_success;
     NamedTemporaryFile := NamedTemporaryFile host_success;
     getsitepackages := getsitepackages host_success;
     executable := executable host_success;
     open_w := Ok tt;
     Popen := Ok 4242;
     returncode := 1;
     open_r := Ok tt;
     read := Ok "ERROR: No matching distribution found for fal";
     unlink := Ok tt |}.

(** No directory for temporary files can be used. *)
Definition host_no_tempdir : Host :=
  {| import_fal := import_fal host_success;
     NamedTemporaryFile :=
       Raise (Exn OSError "[Errno 2] No usable temporary directory found");
     getsitepackages := getsitepackages host_success;
     executable := executable host_success;
     open_w := Ok tt;
     Popen := Ok 4242;
     returncode := 0;
     open_r := Ok tt;
     read := Ok "Successfully installed fal-1.0";
     unlink := Ok tt |}.

(** The interpreter cannot be launched. *)
Definition host_no_python : Host :=
  {| import_fal := import_fal host_success;
     NamedTemporaryFile := NamedTemporaryFile host_success;
     getsitepackages := getsitepackages host_success;
     executable := executable host_success;
     open_w := Ok tt;
     Popen := Raise (Exn OSError
       "[Errno 13] Permission denied: '/blender/python/bin/python'");
     returncode := 0;
     open_r := Ok tt;
     read := Ok "";
     unlink := Ok tt |}.

(** pip exits with code 0, but its output cannot be decoded when the
    capture file is read back. *)
Definition host_undecodable_log : Host :=
  {| import_fal := import_fal host_success;
     NamedTemporaryFile := NamedTemporaryFile host_success;
     getsitepackages := getsitepackages host_success;
     executable := executable host_success;
     open_w := Ok tt;
     Popen := Ok 4242;
     returncode := 0;
     open_r := Ok tt;
     read := Raise (Exn UnicodeDecodeError
       "'utf-8' codec can't decode byte 0xe9 in position 118");
     unlink := Ok tt |}.

(** The package is importable. *)
Definition host_installed : Host :=
  {| import_fal := Ok "/blender/python/lib/site-packages/fal/__init__.py";
     NamedTemporaryFile := NamedTemporaryFile host_success;
     getsitepackages := getsitepackages host_success;
     executable := executable host_success;
     open_w := Ok tt;
     Popen := Ok 4242;
     returncode := 0;
     open_r := Ok tt;
     read := Ok "Requirement already satisfied: fal";
     unlink := Ok tt |}.

(** A small 3D scene for [process_mesh]: objects by name, each with its
    type and the height of its origin; the operators only switch the
    mode. *)
Module DemoScene.
Record Blend : Type := mkBlend {
  mode : string;
  objects : gmap string (string * Q)
}.

Definition obj_type (name : string) (b : Blend) : string :=
  default "" (fst <$> objects b !! name).
Definition object_mode_set (m : string) : ST Blend unit :=
  modify (λ b, mkBlend m (objects b)).
Definition from_edit_mesh (name : string) : ST Blend unit := mret tt.
Definition remove_doubles (bm : unit) (dist : Q) : ST Blend unit := mret tt.
Definition update_edit_mesh (name : string) : ST Blend unit := mret tt.
Definition object_origin_set (type center : string) : ST Blend unit :=
  mret tt.
Definition object_transform_apply (location rotation scale : bool)
    : ST Blend unit := mret tt.
Definition assign_location_z (name : string) (z : Q) : ST Blend unit :=
  modify (λ b, mkBlend (mode b) (alter (λ o, (o.1, z)) name (objects b))).

Definition process : string → ST Blend unit :=
  process_mesh Blend string unit obj_type object_mode_set from_edit_mesh
    remove_doubles update_edit_mesh object_origin_set
    object_transform_apply assign_location_z.

Definition sample : Blend :=
  mkBlend "OBJECT"
    (<["Plane" := ("MESH", 1.5%Q)]> (<["Camera" := ("CAMERA", 4%Q)]> ∅)).
End DemoScene.

(** ** [FAL_OT_UpdateAPIKey.execute] *)

Definition FAL_OT_UpdateAPIKey_execute (module_name : string) : M op_result :=
  log_debug "Update API key operator executed";;
  new_key ← scene_get fal_api_key_input;
  log_debug ("Updating API key (length: " +:+ str_int (len new_key) +:+ ")");;
  updated ← set_api_key module_name new_key;
  (if (updated : bool) then
     report "INFO" "FAL API Key updated successfully";;
     log_info "FAL API Key updated successfully"
   else
     report "ERROR" "Failed to update FAL API Key";;
     log_error "Failed to update FAL API Key");;
  mret FINISHED.

(** ** What happens on the host's event loop *)

(** The two things the event loop does with the installer: it runs the
    install operator when the button is pressed and it calls the timer
    callback.  They run one after the other, never at the same time. *)
Inductive ui_action : Type := PressInstall | TimerTick.

#[global] Instance ui_action_eq_dec : EqDecision ui_action :=
  ltac:(solve_decision).

Definition ui_step (w : World) (a : ui_action) : World :=
  match a with
  | PressInstall => exec FAL_OT_InstallPackage_execute w
  | TimerTick => exec _monitor_installation w
  end.

Definition ui_run (actions : list ui_action) (w : World) : World :=
  foldl ui_step w actions.

Definition presses (actions : list ui_action) : nat :=
  length (filter (λ a, a = PressInstall) actions).

(** The host [h] with another answer to [os.unlink]. *)
Definition with_unlink (answer : result unit) (h : Host) : Host :=
  mkHost (import_fal h) (NamedTemporaryFile h) (getsitepackages h)
         (executable h) (open_w h) (Popen h) (returncode h) (open_r h)
         (read h) answer.

(** The status line that a completed run of the worker leaves. *)
Definition worker_status (h : Host) : string :=
  match try_outcome h with
  | Ok _ =>
      if bool_decide (returncode h = 0)
      then "FAL package installation completed successfully!"
      else "ERROR: FAL package installation failed with code "
           +:+ str_int (returncode h)
  | Raise e => "ERROR: " +:+ caught_text e
  end.

(** The redraw tags of the area at window [i], position [j]. *)
Definition redraws_at (i j : nat) (w : World) : option nat :=
  areas ← windows w !! i; area_redraws <$> areas !! j.

Definition type_at (i j : nat) (w : World) : option string :=
  areas ← windows w !! i; area_type <$> areas !! j.

(** ** The log viewers: [FAL_OT_ViewLog], [FAL_OT_ViewDebugLog] *)

(** The viewers also work on the text datablocks and on what the areas
    display. *)
Record Desk : Type := mkDesk {
  desk_world : World;
  (** [bpy.data.texts]: the name given to [new] and the body, in order
      of creation; a text is referred to by its position *)
  texts : list (string * string);
  (** [area.spaces.active.text] of the area at window [i], position [j] *)
  shown : gmap (nat * nat) nat
}.

(** A computation on the world, run on the desk. *)
Definition on_world {A} (m : M A) : ST Desk A := λ d,
  let (r, w') := m (desk_world d) in (r, mkDesk w' (texts d) (shown d)).

(** [bpy.data.texts.new(name)] *)
Definition texts_new (name : string) : ST Desk nat := λ d,
  (Ok (length (texts d)),
   mkDesk (desk_world d) (texts d ++ [(name, "")]) (shown d)).

(** [text.write(content)] appends to the body. *)
Definition text_write (text : nat) (content : string) : ST Desk unit :=
  modify (λ d, mkDesk (desk_world d)
                 (alter (λ t, (t.1, t.2 +:+ content)) text (texts d))
                 (shown d)).

(** [area.spaces.active.text = text] *)
Definition assign_area_text (pos : nat * nat) (text : nat) : ST Desk unit :=
  modify (λ d, mkDesk (desk_world d) (texts d) (<[pos := text]> (shown d))).

(** [area.type = type] *)
Definition retype (type : string) (a : Area) : Area :=
  mkArea type (area_redraws a).
Definition assign_area_type (pos : nat * nat) (type : string)
    : ST Desk unit :=
  on_world (modify (with_windows (alter (alter (retype type) pos.2) pos.1))).

(** The first area of a type among the areas of a screen, and among the
    windows in order: where the nested [for] loops stop. *)
Fixpoint first_area (type : string) (areas : list Area) : option nat :=
  match areas with
  | [] => None
  | a :: rest =>
      if String.eqb (area_type a) type then Some 0%nat
      else S <$> first_area type rest
  end.

Fixpoint first_window_area (type : string) (ws : list (list Area))
    : option (nat * nat) :=
  match ws with
  | [] => None
  | areas :: rest =>
      match first_area type areas with
      | Some j => Some (0%nat, j)
      | None => (λ pos, (S pos.1, pos.2)) <$> first_window_area type rest
      end
  end.

(** [for window in windows: for area in window.screen.areas:
     if area.type == type: <act>; return].  The value tells whether the
    function has returned from inside the loops. *)
Definition for_first_area (type : string) (act : nat * nat → ST Desk unit)
    : ST Desk bool :=
  ws ← get (λ d, windows (desk_world d));
  match first_window_area type ws with
  | Some pos => act pos;; mret true
  | None => mret false
  end.

Definition no_install_log : string :=
  "No installation log available yet. Install the FAL package first.".

Section Viewers.
(** [bpy.ops.screen.userpref_show('INVOKE_DEFAULT')], the host's operator
    that opens the preferences window. *)
Variable userpref_show : ST Desk unit.

Definition _show_text_in_editor (text_datablock : nat) : ST Desk unit :=
  returned ← for_first_area "TEXT_EDITOR" (λ pos,
    assign_area_text pos text_datablock;;
    on_world (log_debug "Showing log in existing text editor"));
  if (returned : bool) then mret tt
  else
    try_except
      (userpref_show;;
       for_first_area "TEXT_EDITOR" (λ pos,
         assign_area_text pos text_datablock;;
         on_world (log_debug "Showing log in new text editor window"));;
       mret tt)
      any_exception
      (λ _,
         on_world (log_debug
           "Could not open new window, falling back to area change");;
         for_first_area "VIEW_3D" (λ pos,
           assign_area_type pos "TEXT_EDITOR";;
           assign_area_text pos text_datablock;;
           on_world (log_debug
             "Changed 3D view to text editor to show log"));;
         mret tt).

Definition FAL_OT_ViewLog_execute : ST Desk op_result :=
  on_world (log_debug "View log operator executed");;
  log_text ← texts_new "FAL_Installation_Log.txt";
  install_log ← on_world (scene_get fal_install_log);
  let log_content :=
    if hasattr_scene "fal_install_log" && truthy install_log
    then install_log else no_install_log in
  text_write log_text log_content;;
  _show_text_in_editor log_text;;
  mret FINISHED.

End Viewers.

(** The body of the inner loops of the debug-log viewer, for the window
    at position [i]: the first text editor shows the text, or else
    (the [for ... else]) the first 3D view is turned into a text editor
    that shows it. *)
Definition show_in_window (text : nat) (i : nat) (areas : list Area)
    : ST Desk unit :=
  match first_area "TEXT_EDITOR" areas with
  | Some j => assign_area_text (i, j) text
  | None =>
      match first_area "VIEW_3D" areas with
      | Some j =>
          assign_area_type (i, j) "TEXT_EDITOR";;
          assign_area_text (i, j) text
      | None => mret tt
      end
  end.

(** [for window in windows: ...], from the window at position [i] on. *)
Fixpoint show_in_each_window (text : nat) (i : nat) (ws : list (list Area))
    : ST Desk unit :=
  match ws with
  | [] => mret tt
  | areas :: rest =>
      show_in_window text i areas;;
      show_in_each_window text (S i) rest
  end.

Definition FAL_OT_ViewDebugLog_execute : ST Desk op_result :=
  on_world (log_debug "View debug log operator executed");;
  log_text ← texts_new "FAL_Debug_Log.txt";
  debug_log ← on_world (scene_get fal_debug_log);
  let log_content :=
    if hasattr_scene "fal_debug_log" && truthy debug_log
    then debug_log else "No debug log available." in
  text_write log_text log_content;;
  ws ← get (λ d, windows (desk_world d));
  show_in_each_window log_text 0 ws;;
  mret FINISHED.

(** What the debug-log viewer does to the areas of one window. *)
Definition make_room_for_text (areas : list Area) : list Area :=
  match first_area "TEXT_EDITOR" areas with
  | Some _ => areas
  | None =>
      match first_area "VIEW_3D" areas with
      | Some j => alter (retype "TEXT_EDITOR") j areas
      | None => areas
      end
  end.

(** How many areas of a type a screen has. *)
Definition count_type (type : string) (areas : list Area) : nat :=
  length (filter (λ a, area_type a = type) areas).

(** A desk with nothing in the text editor yet. *)
Definition desk_of (w : World) : Desk := mkDesk w [] ∅.

(** The preferences window opens beside the others. *)
Definition open_preferences_window : ST Desk unit :=
  on_world (modify (with_windows (λ ws, ws ++ [[mkArea "PREFERENCES" 0]]))).

(** The host refuses to open a window. *)
Definition refuse_window : ST Desk unit :=
  raise (Exn RuntimeError "Operator bpy.ops.screen.userpref_show.poll() failed").

(** The viewer up to the point where it looks for an editor: one text
    more, holding the install log or the placeholder. *)
Definition log_text_body (w : World) : string :=
  if truthy (fal_install_log (scene w))
  then fal_install_log (scene w) else no_install_log.

Definition with_log_text (d : Desk) : Desk :=
  mkDesk (debug_logged "View log operator executed" (desk_world d))
         (texts d ++ [("FAL_Installation_Log.txt",
                       log_text_body (desk_world d))])
         (shown d).

(** A world with two windows and no text editor. *)
Definition viewport_world : World :=
  with_windows
    (λ _, [[mkArea "PROPERTIES" 0; mkArea "VIEW_3D" 0];
           [mkArea "VIEW_3D" 0; mkArea "OUTLINER" 0]])
    fresh_world.

(** What the areas display after the debug-log viewer has gone through
    the windows [ws], the first of them at position [i]: in each window
    the text is in the first text editor that the window then has. *)
Fixpoint shown_in_each (text : nat) (i : nat) (ws : list (list Area))
    (sh : gmap (nat * nat) nat) : gmap (nat * nat) nat :=
  match ws with
  | [] => sh
  | areas :: rest =>
      shown_in_each text (S i) rest
        (match first_area "TEXT_EDITOR" (make_room_for_text areas) with
         | Some j => <[(i, j) := text]> sh
         | None => sh
         end)
  end.

(** ** [FAL_OT_GenerateImage.execute] *)

(** The operator works on the world and on the 3D scene.  The file
    defines neither [_generate_image] nor [create_image_plane]: they are
    parameters here, free to change both states and to raise (a method
    that does not exist raises [AttributeError] when it is looked up). *)
Section GenerateImage.
Variable Blend : Type.
Variable Obj : Type.
Variable BMesh : Type.
Variable obj_type : Obj → Blend → string.
Variable object_mode_set : string → ST Blend unit.
Variable from_edit_mesh : Obj → ST Blend BMesh.
Variable remove_doubles : BMesh → Q → ST Blend unit.
Variable update_edit_mesh : Obj → ST Blend unit.
Variable object_origin_set : string → string → ST Blend unit.
Variable object_transform_apply : bool → bool → bool → ST Blend unit.
Variable assign_location_z : Obj → Q → ST Blend unit.

(** [self._generate_image(prefs)]: the path of the image, or [None] *)
Variable _generate_image : ST (World * Blend) (option string).
(** [self.create_image_plane(context, image_path)] *)
Variable create_image_plane : string → ST (World * Blend) Obj.

Definition in_world {A} (m : M A) : ST (World * Blend) A := λ s,
  let (r, w') := m s.1 in (r, (w', s.2)).

Definition in_blend {A} (m : ST Blend A) : ST (World * Blend) A := λ s,
  let (r, b') := m s.2 in (r, (s.1, b')).

(** [not image_path]: [None] and the empty string are falsy. *)
Definition falsy_path (image_path : option string) : bool :=
  match image_path with
  | Some path => negb (truthy path)
  | None => true
  end.

Definition FAL_OT_GenerateImage_execute : ST (World * Blend) op_result :=
  try_except
    (image_path ← _generate_image;
     if falsy_path image_path then mret CANCELLED
     else
       obj ← create_image_plane (default "" image_path);
       in_blend (process_mesh Blend Obj BMesh obj_type object_mode_set
                   from_edit_mesh remove_doubles update_edit_mesh
                   object_origin_set object_transform_apply
                   assign_location_z obj);;
       mret FINISHED)
    any_exception
    (λ e,
       in_world (log_error ("Error during image generation and processing: "
                            +:+ exn_str e));;
       mret CANCELLED).

End GenerateImage.

(** The lookup of a method that the operator class does not define. *)
Definition missing_method {S A} (name : string) : ST S A :=
  raise (Exn AttributeError
           ("'FAL_OT_GenerateImage' object has no attribute '"
            +:+ name +:+ "'")).

(** ** What the add-on keeps as history *)

(** The debug log, the console, the events, the reports and the count of
    threads of [w'] continue those of [w]. *)
Definition history_kept (w w' : World) : Prop :=
  (∃ lines, fal_debug_log (scene w') = fal_debug_log (scene w) +:+ lines) ∧
  stdout w `prefix_of` stdout w' ∧
  events w `prefix_of` events w' ∧
  reports w `prefix_of` reports w' ∧
  (threads_started w ≤ threads_started w')%nat.

Definition keeps_history {A} (m : M A) : Prop :=
  ∀ w, history_kept w (exec m w).

(** The functions of the add-on that run on the world, as calls. *)
Inductive operation : Type :=
  | CallIsPackageInstalled (h : Host)
  | CallInstallPackage
  | RunWorker (h : Host)
  | CallMonitor
  | PressInstallButton
  | CallGetApiKey (name : string)
  | CallSetApiKey (name value : string)
  | PressUpdateKey (name : string).

Definition perform (w : World) (op : operation) : World :=
  match op with
  | CallIsPackageInstalled h => exec (is_package_installed h) w
  | CallInstallPackage => exec install_package w
  | RunWorker h => exec (_install_process h) w
  | CallMonitor => exec _monitor_installation w
  | PressInstallButton => exec FAL_OT_InstallPackage_execute w
  | CallGetApiKey name => exec (get_api_key name) w
  | CallSetApiKey name value => exec (set_api_key name value) w
  | PressUpdateKey name => exec (FAL_OT_UpdateAPIKey_execute name) w
  end.

(** ** The panels: [FAL_PT_Panel.draw], [FAL_PT_MainPanel.draw] *)

(** What a [draw] method puts on its layout, in order. *)
#[warnings="-register-all"]
Inductive Widget : Type :=
  (** [layout.label(text=..., icon=...)] *)
  | Label (text icon : string)
  (** [layout.operator(idname, text=...)] *)
  | Button (idname text : string)
  (** [layout.prop(owner, property, text=..., slider=...)] *)
  | Field (owner property : string) (text : option string) (slider : bool)
  (** [layout.box()] with what was put into it *)
  | Box (children : list Widget)
  (** [layout.row()] with its [scale_y] and what was put into it *)
  | Row (scale_y : Q) (children : list Widget)
  (** [layout.separator()] *)
  | Separator.

(** The operators that a widget offers as buttons. *)
Fixpoint buttons (x : Widget) : list string :=
  match x with
  | Button idname _ => [idname]
  | Box children | Row _ children => flat_map buttons children
  | _ => []
  end.

Definition offers (idname : string) (ui : list Widget) : bool :=
  existsb (String.eqb idname) (flat_map buttons ui).

Definition scene_set_api_key_input (v : string) (s : Scene) : Scene :=
  mkScene (until_nul v) (fal_install_log s) (fal_debug_log s) (fal_install_success s)
          (fal_install_in_progress s) (fal_install_progress s)
          (fal_install_pid s) (fal_status_message s).

(** The enabled add-on with a key typed into the input field. *)
Definition key_typed_world : World :=
  with_scene (scene_set_api_key_input "key-123") enabled_world.

Section Panels.
Variable h : Host.
Variable module_name : string.

(** The panel of [blender-script.py]. *)
Definition FAL_PT_Panel_draw : M (list Widget) :=
  status ← scene_get fal_status_message;
  let status_line :=
    if hasattr_scene "fal_status_message" && truthy status
    then [Label status "NONE"] else [] in
  is_fal_installed ← is_package_installed h;
  in_progress ← scene_get fal_install_in_progress;
  progress ← scene_get fal_install_progress;
  let box :=
    if (is_fal_installed : bool)
    then [Label "✓ FAL package is installed" "CHECKMARK"]
    else
      Label "✗ FAL package is not installed" "CANCEL" ::
      (if hasattr_scene "fal_install_in_progress" && in_progress
       then [Label ("Installation in progress: " +:+ str_int progress
                    +:+ "%") "NONE";
             Row 0.5%Q
               [Field "scene" "fal_install_progress" (Some "") true]]
       else [Button "fal.install_package" "Install FAL Package"]) in
  install_success ← scene_get fal_install_success;
  install_log ← scene_get fal_install_log;
  let last_installation :=
    if hasattr_scene "fal_install_success"
       && (hasattr_scene "fal_install_log" && truthy install_log)
    then [Label ("Last installation: "
                 +:+ (if (install_success : bool)
                      then "Success" else "Failed"))
                (if install_success then "CHECKMARK" else "ERROR")]
    else [] in
  let log_box :=
    [Label "Logs:" "TEXT"] ++ last_installation ++
    [Row 1%Q [Button "fal.view_log" "View Full Log";
            Button "fal.view_debug_log" "View Debug Log"]] in
  current_key ← get_api_key module_name;
  (if negb (hasattr_scene "fal_api_key_input")
   then modify (with_scene (scene_set_api_key_input current_key))
   else mret tt);;
  mret (status_line ++
        [Box box; Box log_box; Separator;
         Label "FAL API Key Settings:" "NONE";
         Row 1%Q [Field "scene" "fal_api_key_input" (Some "FAL_KEY") false];
         Button "fal.update_api_key" "Update API Key";
         if truthy current_key
         then Label "API Key is set" "CHECKMARK"
         else Label "No API Key detected" "ERROR"]).

(** The panel of [fal_ai_image_to_3d]. *)
Definition FAL_PT_MainPanel_draw : M (list Widget) :=
  prefs ← addon_preferences module_name;
  installed ← is_package_installed h;
  if negb installed then
    mret [Label "FAL package not installed" "ERROR";
          Button "fal.install_package" "Install FAL Package"]
  else
    key ← get_api_key module_name;
    if negb (truthy key) then
      mret [Label "API key not set" "ERROR";
            Button "fal.update_api_key" "Set API Key"]
    else
      mret [Box [Label "Image Generation Settings" "IMAGE_DATA";
                 Field "scene.fal_image_gen" "prompt" None false;
                 Field "scene.fal_image_gen" "negative_prompt" None false;
                 Field "scene.fal_image_gen" "image_width" None false;
                 Field "scene.fal_image_gen" "image_height" None false;
                 Field "scene.fal_image_gen" "num_inference_steps" None false;
                 Field "scene.fal_image_gen" "enable_safety_checker" None
                       false];
            Box [Label "Mesh Processing" "MESH_DATA";
                 Field "scene.fal_image_gen" "merge_distance" None false];
            Button "fal.generate_image" "Generate Image and Convert to 3D"].

End Panels.

(** * Running computations *)

Section Run.
Context {S A B : Type}.

Lemma run_bind (m : ST S A) (k : A → ST S B) (s : S) :
  (m ≫= k) s =
  match m s with
  | (Ok a, s') => k a s'
  | (Raise e, s') => (Raise e, s')
  end.
Proof. reflexivity. Qed.

Lemma run_try_except (body : ST S A) catches (handler : exn → ST S A) s :
  try_except body catches handler s =
  match body s with
  | (Ok a, s') => (Ok a, s')
  | (Raise e, s') => if catches e then handler e s' else (Raise e, s')
  end.
Proof. reflexivity. Qed.
End Run.

(** The logging helpers never raise: the probed property is registered,
    so each helper is its world transformer. *)
Lemma log_debug_run message w :
  log_debug message w = (Ok tt, debug_logged message w).
Proof. reflexivity. Qed.

Lemma log_info_run message w :
  log_info message w = (Ok tt, info_logged message w).
Proof. reflexivity. Qed.

Lemma log_error_run message w :
  log_error message w = (Ok tt, error_logged message w).
Proof. reflexivity. Qed.

Ltac run_prims :=
  cbn beta iota delta
    [mret ST_ret modify get host raise scene_get emit index0 report
     assign_install_log assign_debug_log assign_install_success
     assign_install_in_progress assign_install_progress assign_install_pid
     assign_status_message redraw_view3d any_exception].

(** Symbolic execution: split the binds, replace the helpers by their
    transformers, run the primitive steps. *)
Ltac run :=
  repeat (rewrite ?run_bind, ?run_try_except,
            ?log_debug_run, ?log_info_run, ?log_error_run;
          run_prims).

(** Projections out of a transformed world. *)
Ltac proj :=
  cbn [scene stdout environ addons windows timer_registered threads_started
       reports events with_scene with_stdout with_environ with_addons
       with_windows with_timer with_threads with_reports with_events
       debug_logged info_logged error_logged].

Lemma state_progress w :
  fal_install_progress (scene w) = progressPercent (installation_state w).
Proof. reflexivity. Qed.

Lemma state_in_progress w :
  fal_install_in_progress (scene w) = inProgress (installation_state w).
Proof. reflexivity. Qed.

Lemma state_log w :
  fal_install_log (scene w) = log (installation_state w).
Proof. reflexivity. Qed.

Lemma state_success w :
  fal_install_success (scene w) = success (installation_state w).
Proof. reflexivity. Qed.

Lemma clamp_percentage_id (v : Z) :
  (0 ≤ v ≤ 100)%Z → clamp_percentage v = v.
Proof. unfold clamp_percentage. lia. Qed.

Lemma clamp_percentage_range (v : Z) : (0 ≤ clamp_percentage v ≤ 100)%Z.
Proof. unfold clamp_percentage. lia. Qed.

(** * The installer worker *)

(** An exception before the [try] leaves the worker through the top: the
    installation state is as it was. *)
Lemma worker_setup_failure h w e :
  setup_outcome h = Raise e →
  eval (_install_process h) w = Raise e ∧
  installation_state (exec (_install_process h) w) = installation_state w ∧
  events (exec (_install_process h) w) = events w.
Proof.
  unfold setup_outcome, eval, exec. intros Hs.
  destruct (_install_process h w) as [r w'] eqn:E.
  revert E. unfold _install_process. run.
  destruct (NamedTemporaryFile h) as [log_path|e'].
  - run. destruct (getsitepackages h) as [|sp rest]; [|discriminate].
    run. injection Hs as <-. by intros [= <- <-].
  - run. injection Hs as <-. by intros [= <- <-].
Qed.

(** Once the capture file and the target directory are there, the worker
    returns, and the host's answers determine the state it leaves. *)
Lemma worker_completion h w paths :
  setup_outcome h = Ok paths →
  eval (_install_process h) w = Ok tt ∧
  installation_state (exec (_install_process h) w) =
    {| progressPercent := if worker_success h then 100 else 0;
       inProgress := false;
       log := until_nul (worker_log h);
       success := worker_success h;
       processId := worker_pid h (fal_install_pid (scene w)) |} ∧
  events (exec (_install_process h) w) = events w ++ worker_events h.
Proof.
  unfold setup_outcome, eval, exec, worker_events, worker_success, worker_log,
    worker_pid, try_outcome.
  intros Hs.
  destruct (_install_process h w) as [r w'] eqn:E.
  revert E. unfold _install_process. run.
  destruct (NamedTemporaryFile h) as [log_path|]; [|discriminate].
  destruct (getsitepackages h) as [|sp rest]; [discriminate|].
  run.
  destruct (open_w h) as [[]|e1]; run;
  [destruct (Popen h) as [pid|e2]; run;
   [destruct (open_r h) as [[]|e3]; run;
    [destruct (read h) as [output|e4]; run;
     [case_bool_decide; run|]|]|]|];
  (destruct (unlink h) as [[]|e5]; run; intros [= <- <-]; cbn;
   repeat split; by rewrite <- ?app_assoc).
Qed.

(** The worker returns exactly when its setup succeeds. *)
Lemma worker_returns_iff_setup h w :
  eval (_install_process h) w = Ok tt ↔ is_ok (setup_outcome h) = true.
Proof.
  destruct (setup_outcome h) as [paths|e] eqn:Hs; cbn.
  - split; [done|]. intros _. by destruct (worker_completion h w paths Hs).
  - destruct (worker_setup_failure h w e Hs) as [-> _]. split; discriminate.
Qed.

Lemma worker_trace_events h w :
  eval (_install_process h) w = Ok tt →
  worker_trace h w = worker_events h.
Proof.
  intros Hret. apply worker_returns_iff_setup in Hret.
  destruct (setup_outcome h) as [paths|] eqn:Hs; [|discriminate].
  destruct (worker_completion h w paths Hs) as (_ & _ & Hev).
  unfold worker_trace. rewrite Hev. by rewrite drop_app_length.
Qed.

(** An exception raised inside the [try] is caught, described in the
    install log, and ends the installation as a failure. *)
Lemma worker_catches_exception h w e :
  eval (_install_process h) w = Ok tt →
  try_outcome h = Raise e →
  let s := scene (exec (_install_process h) w) in
  fal_install_log s =
    until_nul ("Exception during installation: " +:+ exn_str e) ∧
  fal_install_success s = false ∧
  fal_install_in_progress s = false.
Proof.
  cbv zeta. intros Hret Htry. apply worker_returns_iff_setup in Hret.
  destruct (setup_outcome h) as [paths|] eqn:Hs; [|discriminate].
  destruct (worker_completion h w paths Hs) as (_ & Hst & _).
  unfold installation_state, worker_log, worker_success in Hst.
  rewrite Htry in Hst. by injection Hst as _ -> -> -> _.
Qed.

(** C1.  The worker does not always end with [inProgress] false: when no
    temporary file can be created, the exception is raised before the
    [try], nothing catches it, and the worker ends with the installation
    still marked as in progress, its log empty. *)
Theorem worker_dies_before_try_in_progress :
  fal_install_in_progress (scene started_world) = true ∧
  eval (_install_process host_no_tempdir) started_world =
    Raise (Exn OSError "[Errno 2] No usable temporary directory found") ∧
  installation_state (exec (_install_process host_no_tempdir) started_world) =
    {| progressPercent := 0; inProgress := true; log := "";
       success := false; processId := -1 |}.
Proof. by vm_compute. Qed.

(** C2, as stated, fails: the subprocess exits with code 0, reading the
    capture file back raises, and the worker completes with
    [success = false] and [progressPercent = 0]. *)
Lemma exit_zero_undecodable_log_is_failure :
  ProcExited 0 ∈ worker_trace host_undecodable_log started_world ∧
  eval (_install_process host_undecodable_log) started_world = Ok tt ∧
  ¬ (let s := scene (exec (_install_process host_undecodable_log)
                       started_world) in
     fal_install_success s = true ∧
     fal_install_progress s = 100 ∧
     fal_install_in_progress s = false).
Proof.
  split; [|split].
  - vm_compute. apply list_elem_of_In. right. by left.
  - by vm_compute.
  - vm_compute. intros [? _]. discriminate.
Qed.

(** C2, amended.  When the worker completes, no call inside its [try]
    has raised and the subprocess has exited with code 0, the state has
    [success = true], [progressPercent = 100] and [inProgress = false],
    and the log holds the captured output, up to its first NUL
    character if it has one. *)
Theorem worker_success_state (h : Host) (w : World) (output : string) :
  eval (_install_process h) w = Ok tt →
  try_outcome h = Ok output →
  returncode h = 0 →
  let s := scene (exec (_install_process h) w) in
  fal_install_success s = true ∧
  fal_install_progress s = 100 ∧
  fal_install_in_progress s = false ∧
  fal_install_log s = until_nul output.
Proof.
  cbv zeta. intros Hret Htry Hrc. apply worker_returns_iff_setup in Hret.
  destruct (setup_outcome h) as [paths|] eqn:Hs; [|discriminate].
  destruct (worker_completion h w paths Hs) as (_ & Hst & _).
  unfold installation_state, worker_log, worker_success in Hst.
  rewrite Htry, bool_decide_eq_true_2 in Hst by done.
  by injection Hst as -> -> -> -> _.
Qed.

Lemma worker_success_state_witness :
  eval (_install_process host_success) started_world = Ok tt ∧
  try_outcome host_success = Ok "Successfully installed fal-1.0" ∧
  returncode host_success = 0 ∧
  let s := scene (exec (_install_process host_success) started_world) in
  fal_install_success s = true ∧
  fal_install_progress s = 100 ∧
  fal_install_in_progress s = false ∧
  fal_install_log s = "Successfully installed fal-1.0".
Proof.
  split; [vm_compute; reflexivity|].
  split; [reflexivity|].
  split; [reflexivity|].
  apply (worker_success_state host_success started_world
           "Successfully installed fal-1.0");
    vm_compute; reflexivity.
Defined.

(** The failures that the worker handles: when it completes a run that
    failed, because the subprocess exited with a non-zero code or because
    a call inside the [try] raised, the state has [success = false],
    [progressPercent = 0] and [inProgress = false]. *)
Lemma worker_failure_state (h : Host) (w : World) :
  eval (_install_process h) w = Ok tt →
  returncode h ≠ 0 ∨ is_ok (try_outcome h) = false →
  let s := scene (exec (_install_process h) w) in
  fal_install_success s = false ∧
  fal_install_progress s = 0 ∧
  fal_install_in_progress s = false.
Proof.
  cbv zeta. intros Hret Hfail. apply worker_returns_iff_setup in Hret.
  destruct (setup_outcome h) as [paths|] eqn:Hs; [|discriminate].
  destruct (worker_completion h w paths Hs) as (_ & Hst & _).
  assert (worker_success h = false) as Hno.
  { unfold worker_success. destruct Hfail as [Hrc| ->]; [|done].
    rewrite bool_decide_eq_false_2 by done. apply andb_false_r. }
  unfold installation_state in Hst. rewrite Hno in Hst.
  by injection Hst as -> -> _ -> _.
Qed.

Lemma worker_failure_state_witness :
  eval (_install_process host_pip_fails) started_world = Ok tt ∧
  (returncode host_pip_fails ≠ 0 ∨
   is_ok (try_outcome host_pip_fails) = false) ∧
  let s := scene (exec (_install_process host_pip_fails) started_world) in
  fal_install_success s = false ∧
  fal_install_progress s = 0 ∧
  fal_install_in_progress s = false.
Proof.
  split; [vm_compute; reflexivity|].
  split; [left; vm_compute; discriminate|].
  apply (worker_failure_state host_pip_fails started_world);
    [vm_compute; reflexivity | left; vm_compute; discriminate].
Defined.

(** * Starting an installation *)

Lemma hasattr_fal_install_in_progress :
  hasattr_scene "fal_install_in_progress" = true.
Proof. reflexivity. Qed.

Lemma install_package_run w :
  eval install_package w = Ok (S (threads_started w)) ∧
  installation_state (exec install_package w) =
    {| progressPercent := 0; inProgress := true; log := "";
       success := false; processId := fal_install_pid (scene w) |} ∧
  threads_started (exec install_package w) = S (threads_started w) ∧
  timer_registered (exec install_package w) = true.
Proof.
  unfold eval, exec.
  destruct (install_package w) as [r w'] eqn:E.
  revert E. unfold install_package. run.
  proj. destruct (timer_registered w) eqn:Ht; cbn [negb]; run;
    intros [= <- <-]; cbn; by rewrite ?Ht.
Qed.

(** C4.  While an installation is in progress the install operator
    reports a warning, returns [CANCELLED] and changes none of the five
    fields of the installation state; it starts no thread, registers no
    timer and adds no event either. *)
Theorem install_rejected_while_in_progress (w : World) :
  fal_install_in_progress (scene w) = true →
  eval FAL_OT_InstallPackage_execute w = Ok CANCELLED ∧
  reports (exec FAL_OT_InstallPackage_execute w) =
    reports w ++ [("WARNING", "Installation already in progress")] ∧
  installation_state (exec FAL_OT_InstallPackage_execute w) =
    installation_state w ∧
  threads_started (exec FAL_OT_InstallPackage_execute w) = threads_started w ∧
  timer_registered (exec FAL_OT_InstallPackage_execute w) =
    timer_registered w ∧
  events (exec FAL_OT_InstallPackage_execute w) = events w.
Proof.
  intros Hin. unfold eval, exec.
  destruct (FAL_OT_InstallPackage_execute w) as [r w'] eqn:E.
  revert E. unfold FAL_OT_InstallPackage_execute. run.
  rewrite hasattr_fal_install_in_progress. run.
  proj. cbn [debug_line scene_set_debug_log fal_install_in_progress].
  rewrite Hin. run. by intros [= <- <-].
Qed.

Lemma install_rejected_while_in_progress_witness :
  fal_install_in_progress (scene started_world) = true ∧
  eval FAL_OT_InstallPackage_execute started_world = Ok CANCELLED ∧
  installation_state (exec FAL_OT_InstallPackage_execute started_world) =
    installation_state started_world.
Proof.
  split; [vm_compute; reflexivity|].
  destruct (install_rejected_while_in_progress started_world)
    as (Hr & _ & Hs & _); [vm_compute; reflexivity|].
  split; [exact Hr | exact Hs].
Defined.

(** * The polling observer *)

(** One call of the timer callback while the installation is in progress:
    it asks to be called again and touches nothing but the progress and
    the redraw tags. *)
Lemma monitor_tick w :
  fal_install_in_progress (scene w) = true →
  eval _monitor_installation w = Ok (Some 0.2%Q) ∧
  installation_state (exec _monitor_installation w) =
    {| progressPercent :=
         if bool_decide (fal_install_progress (scene w) < 90)%Z
         then clamp_percentage (fal_install_progress (scene w) + 1)
         else fal_install_progress (scene w);
       inProgress := true;
       log := fal_install_log (scene w);
       success := fal_install_success (scene w);
       processId := fal_install_pid (scene w) |} ∧
  events (exec _monitor_installation w) = events w.
Proof.
  intros Hin. unfold eval, exec.
  destruct (_monitor_installation w) as [r w'] eqn:E.
  revert E. unfold _monitor_installation. run. rewrite Hin. cbn [negb]. run.
  case_bool_decide; run; intros [= <- <-]; unfold installation_state; cbn;
    by rewrite Hin.
Qed.

(** When no installation is in progress the callback stops the timer
    and leaves the installation state alone. *)
Lemma monitor_stops w :
  fal_install_in_progress (scene w) = false →
  eval _monitor_installation w = Ok None ∧
  installation_state (exec _monitor_installation w) = installation_state w.
Proof.
  intros Hin. unfold eval, exec.
  destruct (_monitor_installation w) as [r w'] eqn:E.
  revert E. unfold _monitor_installation. run. rewrite Hin. cbn [negb]. run.
  by intros [= <- <-].
Qed.

Lemma polls_S n w : polls (S n) w = exec _monitor_installation (polls n w).
Proof. reflexivity. Qed.

(** The state after [n] calls, in closed form. *)
Lemma polls_state n w :
  fal_install_in_progress (scene w) = true →
  (0 ≤ fal_install_progress (scene w) ≤ 100)%Z →
  installation_state (polls n w) =
    {| progressPercent :=
         Z.max (fal_install_progress (scene w))
               (Z.min 90 (fal_install_progress (scene w) + Z.of_nat n));
       inProgress := true;
       log := fal_install_log (scene w);
       success := fal_install_success (scene w);
       processId := fal_install_pid (scene w) |}.
Proof.
  intros Hin Hrange. induction n as [|n IH].
  - unfold polls, installation_state. simpl Nat.iter. rewrite Hin.
    f_equal. lia.
  - rewrite polls_S.
    assert (fal_install_in_progress (scene (polls n w)) = true) as Hin'.
    { by apply (f_equal inProgress) in IH. }
    destruct (monitor_tick _ Hin') as (_ & Hst & _). rewrite Hst. clear Hst.
    apply (f_equal progressPercent) in IH as Hp.
    apply (f_equal log) in IH as Hl.
    apply (f_equal success) in IH as Hs.
    apply (f_equal processId) in IH as Hpid.
    cbn in Hp, Hl, Hs, Hpid. rewrite Hp, Hl, Hs, Hpid.
    f_equal. unfold clamp_percentage. case_bool_decide; lia.
Qed.

(** From the reset that [install_package] performs, [n] polls bring the
    progress to [n], and no further than 90. *)
Lemma polls_from_start n w :
  fal_install_progress (scene (polls n (exec install_package w))) =
    Z.min 90 (Z.of_nat n) ∧
  fal_install_in_progress (scene (polls n (exec install_package w))) = true.
Proof.
  destruct (install_package_run w) as (_ & Hst & _).
  generalize dependent (exec install_package w). intros w1 Hst.
  assert (fal_install_progress (scene w1) = 0) as Hp
    by (by rewrite state_progress, Hst).
  assert (fal_install_in_progress (scene w1) = true) as Hin
    by (by rewrite state_in_progress, Hst).
  assert (0 ≤ fal_install_progress (scene w1) ≤ 100)%Z as Hrange
    by (rewrite Hp; lia).
  pose proof (polls_state n w1 Hin Hrange) as Hn.
  rewrite state_progress, state_in_progress, Hn. cbn. rewrite Hp.
  split; [lia|done].
Qed.

(** C3.  Not every failed run ends with [progressPercent = 0] and
    [inProgress = false].  The creation of the capture file stands before
    the worker's [try]: when it raises, nothing catches the exception,
    the worker's last two assignments are never reached and the worker
    ends with the installation still marked as in progress.  The timer
    callback then goes on for ever: after [n] calls the progress stands
    at [min 90 n], not at 0, and the installation is still in progress. *)
Theorem failure_before_try_stays_in_progress :
  let w1 := exec (_install_process host_no_tempdir) started_world in
  eval (_install_process host_no_tempdir) started_world =
    Raise (Exn OSError "[Errno 2] No usable temporary directory found") ∧
  ¬ (fal_install_success (scene w1) = false ∧
     fal_install_progress (scene w1) = 0 ∧
     fal_install_in_progress (scene w1) = false) ∧
  ∀ n, installation_state (polls n w1) =
         {| progressPercent := Z.min 90 (Z.of_nat n); inProgress := true;
            log := ""; success := false; processId := -1 |}.
Proof.
  cbv zeta.
  assert (installation_state
            (exec (_install_process host_no_tempdir) started_world) =
          {| progressPercent := 0; inProgress := true; log := "";
             success := false; processId := -1 |}) as Hst
    by (vm_compute; reflexivity).
  generalize dependent (exec (_install_process host_no_tempdir) started_world).
  intros w1 Hst.
  apply (f_equal progressPercent) in Hst as Hp.
  apply (f_equal inProgress) in Hst as Hin.
  apply (f_equal log) in Hst as Hl.
  apply (f_equal success) in Hst as Hs.
  apply (f_equal processId) in Hst as Hpid.
  cbn [installation_state progressPercent inProgress log success processId]
    in Hp, Hin, Hl, Hs, Hpid.
  split; [by vm_compute|]. split.
  - intros (_ & _ & Hno). congruence.
  - intros n. rewrite polls_state by (rewrite ?Hp; done || lia).
    rewrite Hp, Hl, Hs, Hpid. f_equal. lia.
Qed.

(** C5.  Along any run of polls made while the installation is in
    progress, the progress never decreases, each poll leaves it as it is
    or adds one without passing 90, and it is never raised above 90: it
    stays at or below 90 when it started there, as it does from the reset
    to 0 that starts an installation, after which [n] polls give
    [min 90 n].  The polls keep the installation in progress and the
    timer running; the terminal values 100 and 0 come from the worker
    when it completes. *)
Theorem polling_progress_monotone_capped (w : World) (i j : nat) :
  fal_install_in_progress (scene w) = true →
  (0 ≤ fal_install_progress (scene w) ≤ 100)%Z →
  (i ≤ j)%nat →
  let progress n := fal_install_progress (scene (polls n w)) in
  (progress i ≤ progress j)%Z ∧
  (progress j ≤ Z.max 90 (progress 0%nat))%Z ∧
  ((progress 0%nat ≤ 90)%Z → (progress j ≤ 90)%Z) ∧
  (progress (S j) = progress j ∨
   (progress (S j) = progress j + 1 ∧ progress (S j) ≤ 90)%Z) ∧
  fal_install_in_progress (scene (polls j w)) = true ∧
  eval _monitor_installation (polls j w) = Ok (Some 0.2%Q) ∧
  (∀ h, eval (_install_process h) (polls j w) = Ok tt →
     let s := scene (exec (_install_process h) (polls j w)) in
     fal_install_in_progress s = false ∧
     (fal_install_progress s = 100 ∨ fal_install_progress s = 0)) ∧
  (∀ w0 n, fal_install_progress (scene (polls n (exec install_package w0)))
           = Z.min 90 (Z.of_nat n)).
Proof.
  intros Hin Hrange Hij progress.
  assert (∀ n, progress n =
    Z.max (fal_install_progress (scene w))
          (Z.min 90 (fal_install_progress (scene w) + Z.of_nat n))) as Hp.
  { intros n. subst progress. cbv beta.
    exact (f_equal progressPercent (polls_state n w Hin Hrange)). }
  assert (fal_install_in_progress (scene (polls j w)) = true) as Hin'.
  { exact (f_equal inProgress (polls_state j w Hin Hrange)). }
  rewrite !Hp. change (Z.of_nat 0) with 0%Z.
  repeat split; try lia.
  - done.
  - by destruct (monitor_tick _ Hin').
  - apply worker_returns_iff_setup in H.
    destruct (setup_outcome h) as [paths|] eqn:Hs; [|discriminate].
    destruct (worker_completion h (polls j w) paths Hs) as (_ & Hst & _).
    by apply (f_equal inProgress) in Hst.
  - apply worker_returns_iff_setup in H.
    destruct (setup_outcome h) as [paths|] eqn:Hs; [|discriminate].
    destruct (worker_completion h (polls j w) paths Hs) as (_ & Hst & _).
    apply (f_equal progressPercent) in Hst. cbn in Hst. rewrite Hst.
    destruct (worker_success h); auto.
  - intros w0 n. apply polls_from_start.
Qed.

Lemma polling_progress_monotone_capped_witness :
  fal_install_in_progress (scene started_world) = true ∧
  (0 ≤ fal_install_progress (scene started_world) ≤ 100)%Z ∧
  (3 ≤ 95)%nat ∧
  (fal_install_progress (scene (polls 3 started_world)) ≤
   fal_install_progress (scene (polls 95 started_world)))%Z ∧
  (fal_install_progress (scene (polls 95 started_world)) ≤ 90)%Z.
Proof.
  split; [vm_compute; reflexivity|].
  split; [vm_compute; split; discriminate|].
  split; [lia|].
  destruct (polling_progress_monotone_capped started_world 3 95)
    as (Hmono & _ & Hcap & _).
  - vm_compute; reflexivity.
  - vm_compute; split; discriminate.
  - lia.
  - split; [exact Hmono|]. apply Hcap. vm_compute. discriminate.
Defined.

(** * The package query *)

Lemma append_assoc (a b c : string) : (a +:+ b) +:+ c = a +:+ (b +:+ c).
Proof.
  induction a as [|x a IH]; [reflexivity|].
  change (String x ((a +:+ b) +:+ c) = String x (a +:+ (b +:+ c))).
  by rewrite IH.
Qed.

(** The whole effect of the query, by the outcome of the import. *)
Lemma is_package_installed_run h w :
  is_package_installed h w =
  match import_fal h with
  | Ok file =>
      (Ok true,
       debug_logged ("FAL package found: " +:+ file)
         (debug_logged "Checking if fal package is installed..." w))
  | Raise e =>
      if bool_decide (exn_cls e = ImportError)
      then (Ok false,
            debug_logged ("FAL package not found: " +:+ exn_str e)
              (debug_logged "Checking if fal package is installed..." w))
      else (Raise e,
            debug_logged "Checking if fal package is installed..." w)
  end.
Proof.
  unfold is_package_installed. run.
  destruct (import_fal h) as [file|e]; run; [done|].
  unfold of_classes.
  destruct (decide (exn_cls e = ImportError)) as [Hc|Hc].
  - rewrite !bool_decide_eq_true_2; [by run|done|]. rewrite Hc. by left.
  - rewrite !bool_decide_eq_false_2; [done|done|].
    intros Hin. apply list_elem_of_In in Hin. destruct Hin as [Hin|[]].
    by symmetry in Hin.
Qed.

(** C6, as stated, fails: the query is not free of state changes.  With
    the package absent, one call leaves the scene's debug log two lines
    longer. *)
Lemma is_package_installed_extends_debug_log :
  eval (is_package_installed host_success) fresh_world = Ok false ∧
  fal_debug_log (scene (exec (is_package_installed host_success) fresh_world))
    = fal_debug_log (scene fresh_world) +:+ LF +:+
      "[DEBUG] Checking if fal package is installed..." +:+ LF +:+
      "[DEBUG] FAL package not found: No module named 'fal'" ∧
  exec (is_package_installed host_success) fresh_world ≠ fresh_world.
Proof.
  split; [by vm_compute|]. split; [by vm_compute|].
  intros Heq.
  apply (f_equal (λ w, String.length (fal_debug_log (scene w)))) in Heq.
  vm_compute in Heq. discriminate.
Qed.

(** C6, amended.  The query returns [True] when the import succeeds and
    [False] when it raises [ImportError] (any other exception of the
    import passes through); a second call right after the first returns
    the same; and a call changes nothing in the installation state, the
    status message, the key input, the environment, the preferences, the
    windows, the timer, the threads, the reports or the events.  What it
    does change: it appends its debug lines to the scene's debug log and
    prints them. *)
Theorem is_package_installed_query (h : Host) (w : World) :
  let w' := exec (is_package_installed h) w in
  eval (is_package_installed h) w =
    match import_fal h with
    | Ok _ => Ok true
    | Raise e => if bool_decide (exn_cls e = ImportError)
                 then Ok false else Raise e
    end ∧
  eval (is_package_installed h) w' = eval (is_package_installed h) w ∧
  installation_state w' = installation_state w ∧
  fal_status_message (scene w') = fal_status_message (scene w) ∧
  fal_api_key_input (scene w') = fal_api_key_input (scene w) ∧
  environ w' = environ w ∧
  addons w' = addons w ∧
  windows w' = windows w ∧
  timer_registered w' = timer_registered w ∧
  threads_started w' = threads_started w ∧
  reports w' = reports w ∧
  events w' = events w ∧
  (∃ lines, fal_debug_log (scene w') = fal_debug_log (scene w) +:+ lines) ∧
  (∃ printed, stdout w' = stdout w ++ printed).
Proof.
  cbv zeta. unfold eval, exec. rewrite !is_package_installed_run.
  destruct (import_fal h) as [file|e]; [|case_bool_decide];
    cbn [fst snd]; (repeat split; try reflexivity);
    try (eexists; proj; cbn; rewrite ?append_assoc; reflexivity);
    try (eexists; proj; rewrite <- ?app_assoc; reflexivity).
Qed.

(** * When the install log is written *)

(** C7, as stated, fails: when the interpreter cannot be launched no
    subprocess ever exits, and the one text assigned to the install log
    is the description of the exception, not subprocess output. *)
Lemma launch_failure_writes_log_without_exit :
  worker_trace host_no_python started_world =
    [LogAssigned ("Exception during installation: [Errno 13] Permission " +:+
                  "denied: '/blender/python/bin/python'")] ∧
  ¬ log_written_once_after_exit host_no_python started_world.
Proof.
  split; [by vm_compute|].
  intros [Hexit _]. vm_compute in Hexit. discriminate.
Qed.

(** C7, amended.  In a run that the worker completes, the install log is
    assigned exactly once, as the last event of the run, and never while
    the subprocess is running: any reader before that assignment sees
    the log as it was when the run began.  When no call inside the [try]
    has raised, the text is the captured output and the assignment comes
    after the exit of the subprocess; when one has raised, the text is
    the description of the exception.  The property then holds the text
    up to its first NUL character. *)
Theorem install_log_written_once (h : Host) (w : World) :
  eval (_install_process h) w = Ok tt →
  let t := worker_trace h w in
  log_writes t = [worker_log h] ∧
  (∃ before, t = before ++ [LogAssigned (worker_log h)]) ∧
  (∀ n, (n < length t)%nat →
        log_after (fal_install_log (scene w)) (take n t) =
        fal_install_log (scene w)) ∧
  quiet_while_running false t = true ∧
  fal_install_log (scene (exec (_install_process h) w)) =
    until_nul (worker_log h) ∧
  (∀ output, try_outcome h = Ok output →
     worker_log h = output ∧ exited_before_write false t = true) ∧
  (∀ e, try_outcome h = Raise e →
     worker_log h = "Exception during installation: " +:+ exn_str e).
Proof.
  intros Hret t. subst t. rewrite (worker_trace_events h w Hret).
  assert (fal_install_log (scene (exec (_install_process h) w)) =
          until_nul (worker_log h)) as Hlog.
  { apply worker_returns_iff_setup in Hret.
    destruct (setup_outcome h) as [paths|] eqn:Hs; [|discriminate].
    destruct (worker_completion h w paths Hs) as (_ & Hst & _).
    by rewrite state_log, Hst. }
  unfold worker_events, worker_log, try_outcome in *.
  destruct (open_w h) as [[]|e1];
    [destruct (Popen h) as [pid|e2];
     [destruct (open_r h) as [[]|e3]; [destruct (read h) as [out|e4]|]|]|];
  (split; [done|]);
  (split; [by eexists|]);
  (split; [intros n Hn; cbn in Hn;
           repeat (destruct n as [|n]; [done|]); lia|]);
  (split; [done|]);
  (split; [done|]);
  (split; intros ? Heq; simplify_eq; by repeat split).
Qed.

Lemma install_log_written_once_witness :
  eval (_install_process host_no_python) started_world = Ok tt ∧
  log_writes (worker_trace host_no_python started_world) =
    [worker_log host_no_python].
Proof.
  split; [vm_compute; reflexivity|].
  destruct (install_log_written_once host_no_python started_world)
    as (Hw & _); [vm_compute; reflexivity|].
  exact Hw.
Defined.

(** * The API key *)

(** The cut leaves a value without NUL as it is, and what it leaves is a
    beginning of the value that holds no NUL. *)
Lemma until_nul_id value : has_nul value = false → until_nul value = value.
Proof.
  unfold has_nul. induction value as [|c rest IH]; [done|].
  cbn [list_ascii_of_string existsb until_nul].
  destruct (Ascii.eqb Ascii.zero c); [done|].
  intros Hrest. by rewrite IH.
Qed.

Lemma until_nul_cuts value :
  has_nul value = true → until_nul value ≠ value.
Proof.
  unfold has_nul. induction value as [|c rest IH]; [done|].
  cbn [list_ascii_of_string existsb until_nul].
  destruct (Ascii.eqb Ascii.zero c); [done|].
  intros Hrest [= Heq]. by apply IH.
Qed.

Lemma until_nul_no_nul value : has_nul (until_nul value) = false.
Proof.
  unfold has_nul. induction value as [|c rest IH]; [done|].
  cbn [until_nul]. destruct (Ascii.eqb Ascii.zero c) eqn:Hc; [done|].
  cbn [list_ascii_of_string existsb]. by rewrite Hc.
Qed.

Lemma until_nul_prefix value : String.prefix (until_nul value) value = true.
Proof.
  induction value as [|c rest IH]; [done|].
  cbn [until_nul]. destruct (Ascii.eqb Ascii.zero c); [done|].
  cbn [String.prefix]. by destruct (ascii_dec c c).
Qed.

Lemma get_api_key_run name w :
  eval (get_api_key name) w =
  Ok (match stored_preference name w with
      | Some key =>
          if truthy key then key else default "" (environ w !! "FAL_KEY")
      | None => default "" (environ w !! "FAL_KEY")
      end).
Proof.
  assert (of_classes [KeyError; AttributeError] (no_addon_entry name) = true)
    as Hkey by done.
  assert (of_classes [KeyError; AttributeError] no_api_key_attribute = true)
    as Hattr by done.
  unfold eval, stored_preference.
  destruct (get_api_key name w) as [r w'] eqn:E.
  revert E. unfold get_api_key, addon_preferences, environ_get. run. proj.
  destruct (addons w !! name) as [[p|]|];
    cbn [mbind option_bind fmap option_fmap option_map];
    run; unfold prefs_api_key; run; rewrite ?Hkey, ?Hattr; run.
  - destruct (truthy (api_key p)); run; [by intros [= <- _]|].
    proj. destruct (truthy (default "" (environ w !! "FAL_KEY"))); run;
      by intros [= <- _].
  - proj. destruct (truthy (default "" (environ w !! "FAL_KEY"))); run;
      by intros [= <- _].
  - proj. destruct (truthy (default "" (environ w !! "FAL_KEY"))); run;
      by intros [= <- _].
Qed.

Lemma set_api_key_run name value w :
  eval (set_api_key name value) w = Ok (negb (has_nul value)) ∧
  environ (exec (set_api_key name value) w) =
    (if has_nul value then environ w
     else <["FAL_KEY" := value]> (environ w)) ∧
  addons (exec (set_api_key name value) w) =
    match addons w !! name with
    | Some (Some _) =>
        <[name := Some (mkPrefs (until_nul value))]> (addons w)
    | _ => addons w
    end.
Proof.
  unfold eval, exec.
  destruct (set_api_key name value w) as [r w'] eqn:E.
  revert E.
  unfold set_api_key, addon_preferences, environ_set, assign_prefs_api_key.
  assert (of_classes [KeyError; AttributeError] (no_addon_entry name) = true)
    as Hkey by done.
  assert (of_classes [KeyError; AttributeError] no_api_key_attribute = true)
    as Hattr by done.
  run. proj.
  destruct (addons w !! name) as [[p|]|]; run; rewrite ?Hkey, ?Hattr; run;
    (destruct (has_nul value); run; by intros [= <- <-]).
Qed.

Lemma stored_preference_after_set name value w :
  stored_preference name (exec (set_api_key name value) w) =
  match stored_preference name w with
  | Some _ => Some (until_nul value)
  | None => None
  end.
Proof.
  destruct (set_api_key_run name value w) as (_ & _ & Hadd).
  unfold stored_preference. rewrite Hadd.
  destruct (addons w !! name) as [[p|]|] eqn:Hl; cbn.
  - by rewrite lookup_insert_eq.
  - by rewrite Hl.
  - by rewrite Hl.
Qed.

(** C8, as stated, fails for the writing half: run as a script the
    module is called [__main__], the preference table has no entry for
    it, and [set_api_key] stores the key in the environment only. *)
Lemma set_api_key_without_preferences :
  eval (set_api_key "__main__" "key-123") fresh_world = Ok true ∧
  environ (exec (set_api_key "__main__" "key-123") fresh_world) !! "FAL_KEY"
    = Some "key-123" ∧
  stored_preference "__main__"
    (exec (set_api_key "__main__" "key-123") fresh_world) = None ∧
  ¬ written_to_both "__main__" "key-123"
      (exec (set_api_key "__main__" "key-123") fresh_world).
Proof.
  split; [by vm_compute|]. split; [by vm_compute|]. split; [by vm_compute|].
  intros [Hpref _]. vm_compute in Hpref. discriminate.
Qed.

(** C8, amended.  [get_api_key] returns the key of the preference field
    when the add-on's preferences can be reached and that key is not
    empty, and otherwise the value of [FAL_KEY] in the environment, the
    empty string when it is unset.  [set_api_key] writes the value to
    [FAL_KEY] in the environment unless that assignment raises, and to
    the preference field when the preferences can be reached: the field
    then holds the value up to its first NUL character, so a value
    without one as it is.  When the preferences cannot be reached, the
    preference table stays as it was. *)
Theorem api_key_read_and_written (name value : string) (w : World) :
  let w' := exec (set_api_key name value) w in
  eval (get_api_key name) w =
    Ok (match stored_preference name w with
        | Some key =>
            if truthy key then key else default "" (environ w !! "FAL_KEY")
        | None => default "" (environ w !! "FAL_KEY")
        end) ∧
  (has_nul value = false → environ w' !! "FAL_KEY" = Some value) ∧
  (has_nul value = true → environ w' = environ w) ∧
  (is_Some (stored_preference name w) →
     stored_preference name w' = Some (until_nul value) ∧
     (has_nul value = false → written_to_both name value w')) ∧
  (stored_preference name w = None →
     stored_preference name w' = None ∧ addons w' = addons w).
Proof.
  cbv zeta. destruct (set_api_key_run name value w) as (_ & Henv & Hadd).
  split; [apply get_api_key_run|].
  split; [intros Hnul; rewrite Henv, Hnul; apply lookup_insert_eq|].
  split; [intros Hnul; by rewrite Henv, Hnul|].
  unfold written_to_both. rewrite stored_preference_after_set. split.
  - intros [key ->]. split; [done|]. intros Hnul.
    rewrite Henv, Hnul, (until_nul_id value Hnul).
    split; [done|apply lookup_insert_eq].
  - intros Hnone. rewrite Hnone. split; [done|].
    rewrite Hadd. unfold stored_preference in Hnone.
    by destruct (addons w !! name) as [[p|]|].
Qed.

(** With the preferences reachable the key goes to both places. *)
Lemma set_api_key_with_preferences :
  written_to_both "fal_ai_image_to_3d" "key-123"
    (exec (set_api_key "fal_ai_image_to_3d" "key-123") enabled_world).
Proof. split; by vm_compute. Qed.

(** What was set is what is read back, wherever it was stored. *)
Lemma get_after_set name value w :
  has_nul value = false →
  eval (get_api_key name) (exec (set_api_key name value) w) = Ok value.
Proof.
  intros Hnul. rewrite get_api_key_run, stored_preference_after_set.
  destruct (set_api_key_run name value w) as (_ & Henv & _).
  rewrite Henv, Hnul, lookup_insert_eq, (until_nul_id value Hnul).
  cbn [default].
  destruct (stored_preference name w); [|done].
  by destruct (truthy value).
Qed.

(** C9.  [set_api_key] returns [True] exactly when the assignment to
    [FAL_KEY] in the environment succeeds, whatever happens to the
    preferences: in particular when saving to the preferences raises
    and the handler swallows it. *)
Theorem set_api_key_returns_environment_outcome
    (name value : string) (w : World) :
  eval (set_api_key name value) w =
    Ok (is_ok (eval (environ_set "FAL_KEY" value) w)) ∧
  (∀ e, eval (prefs ← addon_preferences name;
              assign_prefs_api_key name prefs value) w = Raise e →
        eval (set_api_key name value) w =
          Ok (is_ok (eval (environ_set "FAL_KEY" value) w))) ∧
  (eval (set_api_key name value) w = Ok false ↔
   ∃ e, eval (environ_set "FAL_KEY" value) w = Raise e).
Proof.
  destruct (set_api_key_run name value w) as (Hret & _).
  assert (eval (set_api_key name value) w =
          Ok (is_ok (eval (environ_set "FAL_KEY" value) w))) as Heq.
  { rewrite Hret. unfold eval, environ_set. by destruct (has_nul value). }
  split; [done|]. split; [done|].
  rewrite Hret. unfold eval, environ_set.
  destruct (has_nul value); cbn; split.
  - by eexists.
  - done.
  - discriminate.
  - by intros [e ?].
Qed.

(** A key with an embedded NUL is refused by the environment, and the
    preference field keeps its beginning. *)
Example set_api_key_nul_refused :
  eval (set_api_key "fal_ai_image_to_3d" key_with_nul) enabled_world
    = Ok false ∧
  stored_preference "fal_ai_image_to_3d"
    (exec (set_api_key "fal_ai_image_to_3d" key_with_nul) enabled_world)
    = Some "ab".
Proof. split; by vm_compute. Qed.

(** * The mesh guard *)

Section MeshGuard.
Context {Blend Obj BMesh : Type}.
Variable obj_type : Obj → Blend → string.
Variable object_mode_set : string → ST Blend unit.
Variable from_edit_mesh : Obj → ST Blend BMesh.
Variable remove_doubles : BMesh → Q → ST Blend unit.
Variable update_edit_mesh : Obj → ST Blend unit.
Variable object_origin_set : string → string → ST Blend unit.
Variable object_transform_apply : bool → bool → bool → ST Blend unit.
Variable assign_location_z : Obj → Q → ST Blend unit.

(** C10.  For an object whose type is not ['MESH'], [process_mesh]
    returns at once: no operator runs and the whole 3D scene, the
    object and its mesh data included, is as it was. *)
Theorem process_mesh_skips_non_mesh (obj : Obj) (b : Blend) :
  obj_type obj b ≠ "MESH" →
  process_mesh Blend Obj BMesh obj_type object_mode_set from_edit_mesh
    remove_doubles update_edit_mesh object_origin_set
    object_transform_apply assign_location_z obj b = (Ok tt, b).
Proof.
  intros Hne. unfold process_mesh. rewrite run_bind. cbn [get].
  destruct (String.eqb_spec (obj_type obj b) "MESH"); [done|].
  reflexivity.
Qed.
End MeshGuard.

Lemma process_mesh_skips_non_mesh_witness :
  DemoScene.obj_type "Camera" DemoScene.sample ≠ "MESH" ∧
  DemoScene.process "Camera" DemoScene.sample = (Ok tt, DemoScene.sample).
Proof.
  split; [vm_compute; discriminate|].
  apply (process_mesh_skips_non_mesh DemoScene.obj_type
           DemoScene.object_mode_set DemoScene.from_edit_mesh
           DemoScene.remove_doubles DemoScene.update_edit_mesh
           DemoScene.object_origin_set DemoScene.object_transform_apply
           DemoScene.assign_location_z "Camera" DemoScene.sample).
  vm_compute; discriminate.
Defined.

(** A mesh, in contrast, is worked on: it ends on the ground plane. *)
Example process_mesh_grounds_mesh :
  DemoScene.objects (exec (DemoScene.process "Plane") DemoScene.sample)
    !! "Plane" = Some ("MESH", 0%Q).
Proof. by vm_compute. Qed.

(** * Scenarios *)

(** The operator pressed twice in a row: the first press starts the one
    worker thread, the second is turned away and changes nothing of the
    installation. *)
Example second_install_rejected :
  let w1 := exec FAL_OT_InstallPackage_execute fresh_world in
  let w2 := exec FAL_OT_InstallPackage_execute w1 in
  eval FAL_OT_InstallPackage_execute fresh_world = Ok FINISHED ∧
  eval FAL_OT_InstallPackage_execute w1 = Ok CANCELLED ∧
  installation_state w2 = installation_state w1 ∧
  threads_started w2 = 1%nat ∧
  reports w2 =
    [("INFO", "Installing FAL package... This may take a moment.");
     ("WARNING", "Installation already in progress")].
Proof. by vm_compute. Qed.

(** Package absent, installation started, five polls while pip runs, pip
    exits with code 0: the next poll finds the installation complete and
    stops the timer. *)
Example session_success :
  let w1 := exec FAL_OT_InstallPackage_execute fresh_world in
  let w2 := exec (_install_process host_success) (polls 5 w1) in
  eval (is_package_installed host_success) fresh_world = Ok false ∧
  fal_install_progress (scene (polls 5 w1)) = 5 ∧
  installation_state w2 =
    {| progressPercent := 100; inProgress := false;
       log := "Successfully installed fal-1.0";
       success := true; processId := 4242 |} ∧
  eval _monitor_installation w2 = Ok None ∧
  installation_state (exec _monitor_installation w2) = installation_state w2.
Proof. by vm_compute. Qed.

(** The same with pip exiting with code 1. *)
Example session_failure :
  let w1 := exec FAL_OT_InstallPackage_execute fresh_world in
  let w2 := exec (_install_process host_pip_fails) (polls 5 w1) in
  installation_state w2 =
    {| progressPercent := 0; inProgress := false;
       log := "ERROR: No matching distribution found for fal";
       success := false; processId := 4242 |} ∧
  fal_status_message (scene w2) =
    "ERROR: FAL package installation failed with code 1" ∧
  eval _monitor_installation w2 = Ok None.
Proof. by vm_compute. Qed.

(** * More about the worker *)

(** The status line after a completed run. *)
Lemma worker_status_run h w :
  eval (_install_process h) w = Ok tt →
  fal_status_message (scene (exec (_install_process h) w)) = worker_status h.
Proof.
  intros Hret. apply worker_returns_iff_setup in Hret. revert Hret.
  unfold setup_outcome, exec, worker_status, try_outcome, caught_text.
  destruct (_install_process h w) as [r w'] eqn:E.
  revert E. unfold _install_process. run.
  destruct (NamedTemporaryFile h) as [log_path|]; [|discriminate].
  destruct (getsitepackages h) as [|sp rest]; [discriminate|].
  run.
  destruct (open_w h) as [[]|e1]; run;
  [destruct (Popen h) as [pid|e2]; run;
   [destruct (open_r h) as [[]|e3]; run;
    [destruct (read h) as [output|e4]; run;
     [case_bool_decide; run|]|]|]|];
  (destruct (unlink h) as [[]|e5]; run; by intros [= <- <-]).
Qed.

(** X1.  After a run that the worker completes, the status line tells
    the outcome: it is the success message when [success] is true, and
    it starts with [ERROR: ], followed by the exit code or by the
    description of the exception, when [success] is false. *)
Theorem worker_status_tells_outcome (h : Host) (w : World) :
  eval (_install_process h) w = Ok tt →
  let s := scene (exec (_install_process h) w) in
  fal_status_message s = worker_status h ∧
  String.prefix "ERROR: " (fal_status_message s) =
    negb (fal_install_success s) ∧
  (fal_install_success s = true →
   fal_status_message s =
     "FAL package installation completed successfully!").
Proof.
  cbv zeta. intros Hret. rewrite (worker_status_run h w Hret).
  apply worker_returns_iff_setup in Hret.
  destruct (setup_outcome h) as [paths|] eqn:Hs; [|discriminate].
  destruct (worker_completion h w paths Hs) as (_ & Hst & _).
  rewrite state_success, Hst. cbn [success].
  unfold worker_status, worker_success, caught_text.
  destruct (try_outcome h) as [out|e]; cbn [is_ok andb negb];
    [case_bool_decide|]; (split; [done|]); split;
    solve [reflexivity | done].
Qed.

Lemma worker_status_tells_outcome_witness :
  eval (_install_process host_pip_fails) started_world = Ok tt ∧
  fal_status_message
    (scene (exec (_install_process host_pip_fails) started_world)) =
    "ERROR: FAL package installation failed with code 1".
Proof.
  split; [vm_compute; reflexivity|].
  destruct (worker_status_tells_outcome host_pip_fails started_world)
    as (Hmsg & _); [vm_compute; reflexivity|].
  rewrite Hmsg. vm_compute. reflexivity.
Defined.

Lemma worker_setup_failure_status h w :
  is_ok (setup_outcome h) = false →
  fal_status_message (scene (exec (_install_process h) w)) =
  fal_status_message (scene w).
Proof.
  unfold setup_outcome, exec, _install_process. run.
  destruct (NamedTemporaryFile h) as [log_path|]; run;
    [destruct (getsitepackages h) as [|sp rest]; [|discriminate]|]; done.
Qed.

Lemma setup_outcome_with_unlink answer h :
  setup_outcome (with_unlink answer h) = setup_outcome h.
Proof. reflexivity. Qed.

(** X2.  Whether the capture file can be deleted makes no difference to
    the installation: the worker returns or raises as before, and the
    installation state, the status line and the events are the same. *)
Theorem worker_tolerates_unlink_failure
    (h : Host) (answer : result unit) (w : World) :
  eval (_install_process (with_unlink answer h)) w =
    eval (_install_process h) w ∧
  installation_state (exec (_install_process (with_unlink answer h)) w) =
    installation_state (exec (_install_process h) w) ∧
  fal_status_message
    (scene (exec (_install_process (with_unlink answer h)) w)) =
    fal_status_message (scene (exec (_install_process h) w)) ∧
  events (exec (_install_process (with_unlink answer h)) w) =
    events (exec (_install_process h) w).
Proof.
  destruct (setup_outcome h) as [paths|e] eqn:Hs.
  - destruct (worker_completion h w paths Hs) as (Hr & Hst & Hev).
    destruct (worker_completion (with_unlink answer h) w paths Hs)
      as (Hr' & Hst' & Hev').
    rewrite Hr, Hr', Hst, Hst', Hev, Hev'.
    rewrite (worker_status_run h w Hr).
    rewrite (worker_status_run (with_unlink answer h) w Hr').
    done.
  - destruct (worker_setup_failure h w e Hs) as (Hr & Hst & Hev).
    destruct (worker_setup_failure (with_unlink answer h) w e Hs)
      as (Hr' & Hst' & Hev').
    rewrite Hr, Hr', Hst, Hst', Hev, Hev'. repeat split.
    rewrite !worker_setup_failure_status
      by (rewrite ?setup_outcome_with_unlink, Hs; done).
    done.
Qed.

(** * The install operator on the event loop *)

Lemma install_package_frame w :
  reports (exec install_package w) = reports w ∧
  events (exec install_package w) = events w ++ [LogAssigned ""] ∧
  windows (exec install_package w) = windows w.
Proof.
  unfold exec.
  destruct (install_package w) as [r w'] eqn:E.
  revert E. unfold install_package. run.
  proj. destruct (timer_registered w); cbn [negb]; run;
    by intros [= <- <-].
Qed.

(** The operator's two branches, by the flag it tests. *)
Lemma press_rejected w :
  fal_install_in_progress (scene w) = true →
  eval FAL_OT_InstallPackage_execute w = Ok CANCELLED ∧
  installation_state (exec FAL_OT_InstallPackage_execute w) =
    installation_state w ∧
  threads_started (exec FAL_OT_InstallPackage_execute w) = threads_started w ∧
  events (exec FAL_OT_InstallPackage_execute w) = events w ∧
  windows (exec FAL_OT_InstallPackage_execute w) = windows w ∧
  reports (exec FAL_OT_InstallPackage_execute w) =
    reports w ++ [("WARNING", "Installation already in progress")].
Proof.
  intros Hin. unfold eval, exec.
  destruct (FAL_OT_InstallPackage_execute w) as [r w'] eqn:E.
  revert E. unfold FAL_OT_InstallPackage_execute. run.
  rewrite hasattr_fal_install_in_progress. run.
  proj. cbn [debug_line scene_set_debug_log fal_install_in_progress].
  rewrite Hin. run. by intros [= <- <-].
Qed.

Lemma press_accepted w :
  fal_install_in_progress (scene w) = false →
  eval FAL_OT_InstallPackage_execute w = Ok FINISHED ∧
  installation_state (exec FAL_OT_InstallPackage_execute w) =
    {| progressPercent := 0; inProgress := true; log := "";
       success := false; processId := fal_install_pid (scene w) |} ∧
  threads_started (exec FAL_OT_InstallPackage_execute w) =
    S (threads_started w) ∧
  timer_registered (exec FAL_OT_InstallPackage_execute w) = true ∧
  reports (exec FAL_OT_InstallPackage_execute w) =
    reports w ++
    [("INFO", "Installing FAL package... This may take a moment.")] ∧
  events (exec FAL_OT_InstallPackage_execute w) =
    events w ++ [LogAssigned ""].
Proof.
  intros Hin. unfold eval, exec.
  destruct (FAL_OT_InstallPackage_execute w) as [r w'] eqn:E.
  revert E. unfold FAL_OT_InstallPackage_execute, install_package. run.
  rewrite hasattr_fal_install_in_progress. run.
  proj. cbn [debug_line scene_set_debug_log fal_install_in_progress].
  rewrite Hin. run. proj.
  destruct (timer_registered w) eqn:Ht; cbn [negb]; run;
    intros [= <- <-]; cbn; by rewrite ?Ht.
Qed.

(** X3.  With no installation in progress the operator starts one: it
    reports INFO, returns [FINISHED], resets the progress to 0, the log
    to the empty string and [success] to false, raises the in-progress
    flag, starts exactly one worker thread and leaves the timer
    registered.  The process id of an earlier run is not reset. *)
Theorem install_accepted_when_idle (w : World) :
  fal_install_in_progress (scene w) = false →
  eval FAL_OT_InstallPackage_execute w = Ok FINISHED ∧
  installation_state (exec FAL_OT_InstallPackage_execute w) =
    {| progressPercent := 0; inProgress := true; log := "";
       success := false; processId := fal_install_pid (scene w) |} ∧
  threads_started (exec FAL_OT_InstallPackage_execute w) =
    S (threads_started w) ∧
  timer_registered (exec FAL_OT_InstallPackage_execute w) = true ∧
  reports (exec FAL_OT_InstallPackage_execute w) =
    reports w ++
    [("INFO", "Installing FAL package... This may take a moment.")].
Proof.
  intros Hin.
  destruct (press_accepted w Hin) as (Hr & Hst & Hth & Htm & Hrep & _).
  by rewrite Hr, Hst, Hth, Htm, Hrep.
Qed.

Lemma install_accepted_when_idle_witness :
  fal_install_in_progress (scene fresh_world) = false ∧
  eval FAL_OT_InstallPackage_execute fresh_world = Ok FINISHED ∧
  threads_started (exec FAL_OT_InstallPackage_execute fresh_world) = 1%nat.
Proof.
  split; [vm_compute; reflexivity|].
  destruct (install_accepted_when_idle fresh_world)
    as (Hr & _ & Hth & _); [vm_compute; reflexivity|].
  split; [exact Hr | exact Hth].
Defined.

Lemma ui_step_in_progress w a :
  fal_install_in_progress (scene w) = true →
  fal_install_in_progress (scene (ui_step w a)) = true ∧
  fal_install_log (scene (ui_step w a)) = fal_install_log (scene w) ∧
  fal_install_success (scene (ui_step w a)) = fal_install_success (scene w) ∧
  fal_install_pid (scene (ui_step w a)) = fal_install_pid (scene w) ∧
  (fal_install_progress (scene w) ≤
   fal_install_progress (scene (ui_step w a)))%Z ∧
  threads_started (ui_step w a) = threads_started w ∧
  events (ui_step w a) = events w.
Proof.
  intros Hin. destruct a; cbn [ui_step].
  - destruct (press_rejected w Hin) as (_ & Hst & Hth & Hev & _).
    rewrite !state_in_progress, !state_log, !state_success, !state_progress.
    change (fal_install_pid (scene ?x))
      with (processId (installation_state x)).
    rewrite Hst, Hth, Hev. by rewrite <- state_in_progress.
  - destruct (monitor_tick w Hin) as (_ & Hst & Hev).
    rewrite !state_in_progress, !state_log, !state_success,
      (state_progress (exec _ _)).
    change (fal_install_pid (scene (exec ?m ?x)))
      with (processId (installation_state (exec m x))).
    rewrite Hst. cbn [inProgress log success progressPercent processId].
    repeat split; try done.
    + unfold clamp_percentage. case_bool_decide; lia.
    + unfold exec, _monitor_installation. run. rewrite Hin. cbn [negb]. run.
      by case_bool_decide.
Qed.

Lemma monitor_reports w :
  reports (exec _monitor_installation w) = reports w.
Proof.
  unfold exec, _monitor_installation. run.
  destruct (fal_install_in_progress (scene w)); cbn [negb]; run;
    [by case_bool_decide|done].
Qed.

Lemma presses_cons a actions :
  presses (a :: actions) =
  ((if a is PressInstall then 1 else 0) + presses actions)%nat.
Proof.
  unfold presses. destruct a.
  - by rewrite filter_cons_True.
  - by rewrite filter_cons_False.
Qed.

(** X4.  While an installation is in progress, nothing the event loop
    does with the installer ends it or starts another: after any
    sequence of button presses and timer calls the flag is still set, no
    thread has been started, the log, [success], the process id and the
    events are as before, the progress has not gone down, and every
    press has been answered with the warning. *)
Theorem no_restart_while_in_progress (actions : list ui_action) (w : World) :
  fal_install_in_progress (scene w) = true →
  let w' := ui_run actions w in
  fal_install_in_progress (scene w') = true ∧
  fal_install_log (scene w') = fal_install_log (scene w) ∧
  fal_install_success (scene w') = fal_install_success (scene w) ∧
  fal_install_pid (scene w') = fal_install_pid (scene w) ∧
  (fal_install_progress (scene w) ≤ fal_install_progress (scene w'))%Z ∧
  threads_started w' = threads_started w ∧
  events w' = events w ∧
  reports w' =
    reports w ++
    replicate (presses actions) ("WARNING", "Installation already in progress").
Proof.
  cbv zeta. revert w. induction actions as [|a actions IH]; intros w Hin.
  - cbn. by rewrite app_nil_r.
  - change (ui_run (a :: actions) w) with (ui_run actions (ui_step w a)).
    destruct (ui_step_in_progress w a Hin)
      as (Hin1 & Hlog & Hok & Hpid & Hp & Hth & Hev).
    destruct (IH _ Hin1) as (Hin2 & Hlog2 & Hok2 & Hpid2 & Hp2 & Hth2 & Hev2
                             & Hrep2).
    rewrite Hin2, Hlog2, Hok2, Hpid2, Hth2, Hev2, Hrep2, presses_cons.
    repeat split; try done; [lia|].
    destruct a; cbn [ui_step].
    + destruct (press_rejected w Hin) as (_ & _ & _ & _ & _ & ->).
      by rewrite <- app_assoc.
    + by rewrite monitor_reports.
Qed.

Lemma no_restart_while_in_progress_witness :
  fal_install_in_progress (scene started_world) = true ∧
  threads_started
    (ui_run [TimerTick; PressInstall; TimerTick; PressInstall] started_world)
    = threads_started started_world.
Proof.
  split; [vm_compute; reflexivity|].
  destruct (no_restart_while_in_progress
              [TimerTick; PressInstall; TimerTick; PressInstall]
              started_world) as (_ & _ & _ & _ & _ & Hth & _);
    [vm_compute; reflexivity|].
  exact Hth.
Defined.

(** X5.  For a worker started on an installation in progress, the
    operator accepts the next press exactly when the worker has run to
    completion; after a worker that ended by an exception the press is
    turned away. *)
Theorem next_install_accepted_iff_worker_completed (h : Host) (w : World) :
  fal_install_in_progress (scene w) = true →
  let w1 := exec (_install_process h) w in
  (eval FAL_OT_InstallPackage_execute w1 = Ok FINISHED ↔
   eval (_install_process h) w = Ok tt) ∧
  (eval FAL_OT_InstallPackage_execute w1 = Ok CANCELLED ↔
   ∃ e, eval (_install_process h) w = Raise e) ∧
  (eval (_install_process h) w = Ok tt →
   installation_state (exec FAL_OT_InstallPackage_execute w1) =
     {| progressPercent := 0; inProgress := true; log := "";
        success := false;
        processId := worker_pid h (fal_install_pid (scene w)) |} ∧
   threads_started (exec FAL_OT_InstallPackage_execute w1) =
     S (threads_started w1)).
Proof.
  cbv zeta. intros Hin.
  destruct (setup_outcome h) as [paths|e] eqn:Hs.
  - destruct (worker_completion h w paths Hs) as (Hr & Hst & _).
    assert (fal_install_in_progress (scene (exec (_install_process h) w))
            = false) as Hin1 by (by rewrite state_in_progress, Hst).
    assert (fal_install_pid (scene (exec (_install_process h) w)) =
            worker_pid h (fal_install_pid (scene w))) as Hpid.
    { change (fal_install_pid (scene ?x))
        with (processId (installation_state x)) at 1.
      by rewrite Hst. }
    destruct (press_accepted _ Hin1) as (Hp & Hst1 & Hth & _).
    rewrite Hp, Hr, Hst1, Hth, Hpid. repeat split; try done.
    by intros [e ?].
  - destruct (worker_setup_failure h w e Hs) as (Hr & Hst & _).
    assert (fal_install_in_progress (scene (exec (_install_process h) w))
            = true) as Hin1 by (by rewrite state_in_progress, Hst).
    destruct (press_rejected _ Hin1) as (Hp & _).
    rewrite Hp, Hr. repeat split; try done. by eexists.
Qed.

Lemma next_install_accepted_iff_worker_completed_witness :
  fal_install_in_progress (scene started_world) = true ∧
  eval FAL_OT_InstallPackage_execute
    (exec (_install_process host_pip_fails) started_world) = Ok FINISHED.
Proof.
  split; [vm_compute; reflexivity|].
  destruct (next_install_accepted_iff_worker_completed host_pip_fails
              started_world) as ([_ Hacc] & _); [vm_compute; reflexivity|].
  apply Hacc. vm_compute. reflexivity.
Defined.

(** * Redraw tags *)

Lemma monitor_windows w :
  windows (exec _monitor_installation w) =
  map (map (λ a, if String.eqb (area_type a) "VIEW_3D"
                 then tag_redraw a else a)) (windows w).
Proof.
  unfold exec, _monitor_installation. run.
  destruct (fal_install_in_progress (scene w)); cbn [negb]; run;
    [by case_bool_decide|done].
Qed.

Lemma monitor_area w i j :
  type_at i j (exec _monitor_installation w) = type_at i j w ∧
  redraws_at i j (exec _monitor_installation w) =
    match type_at i j w with
    | Some ty => (λ r, if String.eqb ty "VIEW_3D" then S r else r)
                 <$> redraws_at i j w
    | None => None
    end.
Proof.
  unfold type_at, redraws_at. rewrite monitor_windows.
  rewrite !list_lookup_fmap.
  destruct (windows w !! i) as [areas|]; cbn; [|done].
  rewrite !list_lookup_fmap.
  destruct (areas !! j) as [a|]; cbn; [|done].
  by destruct (String.eqb (area_type a) "VIEW_3D").
Qed.

(** X6.  [n] calls of the timer callback give every [VIEW_3D] area
    exactly [n] redraw tags and no other area any; no area changes its
    type and no window gains or loses an area. *)
Theorem polls_tag_view3d_areas (n : nat) (w : World) (i j : nat) :
  type_at i j (polls n w) = type_at i j w ∧
  redraws_at i j (polls n w) =
    match type_at i j w with
    | Some ty => (λ r, if String.eqb ty "VIEW_3D" then (r + n)%nat else r)
                 <$> redraws_at i j w
    | None => None
    end ∧
  length <$> windows (polls n w) = length <$> windows w.
Proof.
  induction n as [|n (IHty & IHr & IHlen)].
  - unfold polls. simpl Nat.iter. repeat split.
    unfold type_at, redraws_at.
    destruct (windows w !! i) as [areas|]; cbn; [|done].
    destruct (areas !! j) as [a|]; cbn; [|done].
    destruct (String.eqb _ _); f_equal; lia.
  - rewrite polls_S.
    destruct (monitor_area (polls n w) i j) as [Hty Hr].
    rewrite Hty, Hr, IHty, IHr, monitor_windows.
    repeat split.
    + destruct (type_at i j w) as [ty|]; [|done].
      destruct (redraws_at i j w) as [r|]; cbn; [|done].
      destruct (String.eqb ty "VIEW_3D"); f_equal; lia.
    + rewrite <- IHlen, <- list_fmap_compose. apply list_fmap_ext.
      intros ? areas _. cbn. by rewrite length_map.
Qed.

(** * More about the API key *)

(** X7.  A key that the environment accepts is read back as it was set,
    whether or not the add-on's preferences can be reached, and whatever
    the preference field and the environment held before. *)
Theorem api_key_round_trip (name value : string) (w : World) :
  has_nul value = false →
  eval (set_api_key name value) w = Ok true ∧
  eval (get_api_key name) (exec (set_api_key name value) w) = Ok value.
Proof.
  intros Hnul. split; [|by apply get_after_set].
  destruct (set_api_key_run name value w) as (-> & _). by rewrite Hnul.
Qed.

Lemma api_key_round_trip_witness :
  has_nul "key-123" = false ∧
  eval (get_api_key "__main__")
       (exec (set_api_key "__main__" "key-123") fresh_world) = Ok "key-123".
Proof.
  split; [vm_compute; reflexivity|].
  apply (api_key_round_trip "__main__" "key-123" fresh_world).
  vm_compute; reflexivity.
Defined.

(** X8.  A value with a NUL character is refused by the environment but
    not by the preferences.  [set_api_key] returns [False], yet when the
    preferences can be reached it has overwritten the preference field
    and does not undo that: the field holds the value up to its first
    NUL, which is not the value that was passed, while the environment
    is as it was.  [get_api_key] from then on returns that beginning
    when it is not empty, and the key of the environment when it is. *)
Theorem refused_key_overwrites_preference
    (name value : string) (w : World) :
  has_nul value = true →
  is_Some (stored_preference name w) →
  let w' := exec (set_api_key name value) w in
  let kept := until_nul value in
  eval (set_api_key name value) w = Ok false ∧
  stored_preference name w' = Some kept ∧
  kept ≠ value ∧
  String.prefix kept value = true ∧
  environ w' = environ w ∧
  eval (get_api_key name) w' =
    Ok (if truthy kept then kept else default "" (environ w !! "FAL_KEY")).
Proof.
  cbv zeta. intros Hnul [old Hold].
  destruct (set_api_key_run name value w) as (Hr & Henv & _).
  rewrite Hnul in Hr, Henv.
  rewrite get_api_key_run, stored_preference_after_set, Hold, Henv.
  split; [done|]. split; [done|].
  split; [by apply until_nul_cuts|].
  split; [apply until_nul_prefix|]. done.
Qed.

Lemma refused_key_overwrites_preference_witness :
  has_nul key_with_nul = true ∧
  is_Some (stored_preference "fal_ai_image_to_3d" enabled_world) ∧
  stored_preference "fal_ai_image_to_3d"
    (exec (set_api_key "fal_ai_image_to_3d" key_with_nul) enabled_world)
    = Some "ab" ∧
  eval (get_api_key "fal_ai_image_to_3d")
       (exec (set_api_key "fal_ai_image_to_3d" key_with_nul) enabled_world)
    = Ok "ab".
Proof.
  split; [vm_compute; reflexivity|].
  split; [vm_compute; eexists; reflexivity|].
  destruct (refused_key_overwrites_preference "fal_ai_image_to_3d"
              key_with_nul enabled_world) as (_ & Hpref & _ & _ & _ & Hget).
  - vm_compute; reflexivity.
  - vm_compute; eexists; reflexivity.
  - split; [exact Hpref | exact Hget].
Defined.

Lemma get_api_key_frame name w :
  environ (exec (get_api_key name) w) = environ w ∧
  addons (exec (get_api_key name) w) = addons w ∧
  installation_state (exec (get_api_key name) w) = installation_state w ∧
  events (exec (get_api_key name) w) = events w ∧
  reports (exec (get_api_key name) w) = reports w.
Proof.
  assert (of_classes [KeyError; AttributeError] (no_addon_entry name) = true)
    as Hkey by done.
  assert (of_classes [KeyError; AttributeError] no_api_key_attribute = true)
    as Hattr by done.
  unfold exec.
  destruct (get_api_key name w) as [r w'] eqn:E.
  revert E. unfold get_api_key, addon_preferences, environ_get. run. proj.
  destruct (addons w !! name) as [[p|]|]; run; unfold prefs_api_key; run;
    rewrite ?Hkey, ?Hattr; run;
    [destruct (truthy (api_key p)); run; [by intros [= _ <-]|]| |];
    (proj; destruct (truthy (default "" (environ w !! "FAL_KEY"))); run;
     by intros [= _ <-]).
Qed.

Lemma set_api_key_frame name value w :
  installation_state (exec (set_api_key name value) w) =
    installation_state w ∧
  events (exec (set_api_key name value) w) = events w ∧
  reports (exec (set_api_key name value) w) = reports w.
Proof.
  assert (of_classes [KeyError; AttributeError] (no_addon_entry name) = true)
    as Hkey by done.
  assert (of_classes [KeyError; AttributeError] no_api_key_attribute = true)
    as Hattr by done.
  unfold exec.
  destruct (set_api_key name value w) as [r w'] eqn:E.
  revert E.
  unfold set_api_key, addon_preferences, environ_set, assign_prefs_api_key.
  run. proj.
  destruct (addons w !! name) as [[p|]|]; run; rewrite ?Hkey, ?Hattr; run;
    (destruct (has_nul value); run; by intros [= <- <-]).
Qed.

(** X9.  The two credential functions keep to the credential:
    [get_api_key] changes neither the environment nor the preferences,
    [set_api_key] changes no environment variable but [FAL_KEY] and no
    add-on's preferences but its own, and neither touches the
    installation state, the events or the reports. *)
Theorem credential_functions_frame (name value : string) (w : World) :
  let wg := exec (get_api_key name) w in
  let ws := exec (set_api_key name value) w in
  environ wg = environ w ∧
  addons wg = addons w ∧
  installation_state wg = installation_state w ∧
  (∀ key, key ≠ "FAL_KEY" → environ ws !! key = environ w !! key) ∧
  (∀ other, other ≠ name → addons ws !! other = addons w !! other) ∧
  installation_state ws = installation_state w ∧
  events wg = events w ∧ events ws = events w ∧
  reports wg = reports w ∧ reports ws = reports w.
Proof.
  cbv zeta.
  destruct (get_api_key_frame name w) as (Hge & Hga & Hgs & Hgev & Hgr).
  destruct (set_api_key_frame name value w) as (Hss & Hsev & Hsr).
  destruct (set_api_key_run name value w) as (_ & Henv & Hadd).
  repeat split; try done.
  - intros key Hne. rewrite Henv.
    destruct (has_nul value); [done|]. by rewrite lookup_insert_ne.
  - intros other Hne. rewrite Hadd.
    destruct (addons w !! name) as [[p|]|]; try done.
    by rewrite lookup_insert_ne.
Qed.

(** * The update-key operator *)

Lemma update_api_key_run name w :
  let key := fal_api_key_input (scene w) in
  let w' := exec (FAL_OT_UpdateAPIKey_execute name) w in
  eval (FAL_OT_UpdateAPIKey_execute name) w = Ok FINISHED ∧
  reports w' =
    reports w ++
    [if has_nul key
     then ("ERROR", "Failed to update FAL API Key")
     else ("INFO", "FAL API Key updated successfully")] ∧
  fal_status_message (scene w') =
    (if has_nul key
     then "ERROR: Failed to update FAL API Key"
     else "FAL API Key updated successfully") ∧
  environ w' =
    (if has_nul key then environ w else <["FAL_KEY" := key]> (environ w)) ∧
  addons w' =
    match addons w !! name with
    | Some (Some _) => <[name := Some (mkPrefs (until_nul key))]> (addons w)
    | _ => addons w
    end ∧
  fal_api_key_input (scene w') = key ∧
  installation_state w' = installation_state w.
Proof.
  assert (of_classes [KeyError; AttributeError] (no_addon_entry name) = true)
    as Hkey by done.
  assert (of_classes [KeyError; AttributeError] no_api_key_attribute = true)
    as Hattr by done.
  cbv zeta. unfold eval, exec.
  destruct (FAL_OT_UpdateAPIKey_execute name w) as [r w'] eqn:E.
  revert E.
  unfold FAL_OT_UpdateAPIKey_execute, set_api_key, addon_preferences,
    environ_set, assign_prefs_api_key.
  run. proj. cbn [debug_line scene_set_debug_log fal_api_key_input].
  destruct (addons w !! name) as [[p|]|]; run; rewrite ?Hkey, ?Hattr; run;
    (destruct (has_nul (fal_api_key_input (scene w))); run;
     by intros [= <- <-]).
Qed.

(** X10.  The update-key operator stores what the input field holds.
    The field is a string property, so it holds no NUL character; for
    every such key, in every world, the operator returns [FINISHED],
    reports INFO and shows the success message, the environment and,
    when the preferences can be reached, the preference field hold the
    key, and [get_api_key] then returns it.  The input field and the
    installation state are left as they were. *)
Theorem update_api_key_operator (name : string) (w : World) :
  has_nul (fal_api_key_input (scene w)) = false →
  let key := fal_api_key_input (scene w) in
  let w' := exec (FAL_OT_UpdateAPIKey_execute name) w in
  eval (FAL_OT_UpdateAPIKey_execute name) w = Ok FINISHED ∧
  reports w' =
    reports w ++ [("INFO", "FAL API Key updated successfully")] ∧
  fal_status_message (scene w') = "FAL API Key updated successfully" ∧
  environ w' !! "FAL_KEY" = Some key ∧
  (is_Some (stored_preference name w) →
   stored_preference name w' = Some key) ∧
  eval (get_api_key name) w' = Ok key ∧
  fal_api_key_input (scene w') = key ∧
  installation_state w' = installation_state w.
Proof.
  cbv zeta. intros Hnul.
  destruct (update_api_key_run name w)
    as (Hr & Hrep & Hmsg & Henv & Hadd & Hin & Hst).
  rewrite Hnul in Hrep, Hmsg, Henv.
  rewrite (until_nul_id _ Hnul) in Hadd.
  assert (environ (exec (FAL_OT_UpdateAPIKey_execute name) w) !! "FAL_KEY"
          = Some (fal_api_key_input (scene w))) as Hlook.
  { rewrite Henv. apply lookup_insert_eq. }
  split; [done|]. split; [done|]. split; [done|]. split; [done|].
  split; [|split; [|done]].
  - intros [old Hold]. unfold stored_preference in *. rewrite Hadd.
    destruct (addons w !! name) as [[p|]|]; [|done..].
    by rewrite lookup_insert_eq.
  - rewrite get_api_key_run. unfold stored_preference.
    rewrite Hadd, Hlook. cbn [default].
    destruct (addons w !! name) as [[p|]|] eqn:Hl; cbn.
    + rewrite lookup_insert_eq. cbn.
      by destruct (truthy (fal_api_key_input (scene w))).
    + by rewrite Hl.
    + by rewrite Hl.
Qed.

Lemma update_api_key_operator_witness :
  has_nul (fal_api_key_input (scene key_typed_world)) = false ∧
  eval (FAL_OT_UpdateAPIKey_execute "fal_ai_image_to_3d") key_typed_world
    = Ok FINISHED ∧
  eval (get_api_key "fal_ai_image_to_3d")
       (exec (FAL_OT_UpdateAPIKey_execute "fal_ai_image_to_3d")
             key_typed_world) = Ok "key-123".
Proof.
  split; [vm_compute; reflexivity|].
  destruct (update_api_key_operator "fal_ai_image_to_3d" key_typed_world)
    as (Hr & _ & _ & _ & _ & Hget & _); [vm_compute; reflexivity|].
  split; [exact Hr | exact Hget].
Defined.

(** * The log viewers *)

Lemma on_world_run {A} (m : M A) d :
  on_world m d =
  let (r, w') := m (desk_world d) in (r, mkDesk w' (texts d) (shown d)).
Proof. reflexivity. Qed.

Ltac desk_prims :=
  cbn beta iota delta
    [mret ST_ret modify get host raise scene_get any_exception
     texts_new text_write assign_area_text assign_area_type
     desk_world texts shown].

Ltac desk_run :=
  repeat (rewrite ?run_bind, ?run_try_except, ?on_world_run,
            ?log_debug_run;
          desk_prims).

Lemma alter_last {A} (f : A → A) (l : list A) (x : A) :
  alter f (length l) (l ++ [x]) = l ++ [f x].
Proof. induction l as [|y l IH]; cbn; [done | by rewrite IH]. Qed.

Lemma hasattr_fal_install_log : hasattr_scene "fal_install_log" = true.
Proof. reflexivity. Qed.

Lemma hasattr_fal_debug_log : hasattr_scene "fal_debug_log" = true.
Proof. reflexivity. Qed.

Lemma view_log_run userpref_show d :
  FAL_OT_ViewLog_execute userpref_show d =
  match _show_text_in_editor userpref_show (length (texts d))
          (with_log_text d) with
  | (Ok _, d') => (Ok FINISHED, d')
  | (Raise e, d') => (Raise e, d')
  end.
Proof.
  unfold FAL_OT_ViewLog_execute. desk_run. proj.
  rewrite hasattr_fal_install_log, alter_last. cbn [andb fst snd].
  unfold with_log_text, log_text_body.
  cbn [debug_line scene_set_debug_log fal_install_log].
  by destruct (_show_text_in_editor _ _ _) as [[[]|] ?].
Qed.

(** X11.  With a text editor open, the log viewer creates one new text
    that holds the install log, or the placeholder when the log is
    empty, shows it in the first text editor, in window order, and
    returns [FINISHED]; it does not ask for the preferences window, and
    it changes no area and nothing of the installation state. *)
Theorem view_log_in_open_editor
    (userpref_show : ST Desk unit) (d : Desk) (pos : nat * nat) :
  first_window_area "TEXT_EDITOR" (windows (desk_world d)) = Some pos →
  let d' := exec (FAL_OT_ViewLog_execute userpref_show) d in
  let stored := fal_install_log (scene (desk_world d)) in
  eval (FAL_OT_ViewLog_execute userpref_show) d = Ok FINISHED ∧
  texts d' =
    texts d ++
    [("FAL_Installation_Log.txt",
      if String.eqb stored "" then no_install_log else stored)] ∧
  shown d' = <[pos := length (texts d)]> (shown d) ∧
  windows (desk_world d') = windows (desk_world d) ∧
  installation_state (desk_world d') = installation_state (desk_world d).
Proof.
  cbv zeta. intros Hpos. unfold eval, exec.
  destruct (FAL_OT_ViewLog_execute userpref_show d) as [r d'] eqn:E.
  revert E. rewrite view_log_run.
  unfold _show_text_in_editor, for_first_area. desk_run.
  unfold with_log_text. cbn [desk_world]. proj. rewrite Hpos.
  desk_run. intros [= <- <-]. cbn [fst snd texts shown desk_world].
  unfold log_text_body, truthy.
  by destruct (String.eqb _ "").
Qed.

Lemma view_log_in_open_editor_witness :
  first_window_area "TEXT_EDITOR" (windows fresh_world) = Some (0, 1)%nat ∧
  texts (exec (FAL_OT_ViewLog_execute refuse_window) (desk_of fresh_world)) =
    [("FAL_Installation_Log.txt", no_install_log)].
Proof.
  split; [vm_compute; reflexivity|].
  destruct (view_log_in_open_editor refuse_window (desk_of fresh_world)
              (0, 1)%nat) as (_ & Ht & _); [vm_compute; reflexivity|].
  exact Ht.
Defined.

(** Where the loops stop: at an area of the type looked for, with no
    such area before it in the same window. *)
Lemma first_area_spec type areas j :
  first_area type areas = Some j →
  (∃ a, areas !! j = Some a ∧ area_type a = type) ∧
  (∀ k a, (k < j)%nat → areas !! k = Some a → area_type a ≠ type).
Proof.
  revert j. induction areas as [|a areas IH]; intros j; cbn; [done|].
  destruct (String.eqb_spec (area_type a) type) as [Heq|Hne].
  - intros [= <-]. split; [by exists a|]. intros k b Hk. lia.
  - destruct (first_area type areas) as [j'|]; [|done].
    intros [= <-]. destruct (IH j' eq_refl) as [Hhit Hmiss].
    split; [done|]. intros [|k] b Hk; cbn.
    + by intros [= <-].
    + apply Hmiss. lia.
Qed.

Lemma first_area_none type areas :
  first_area type areas = None →
  ∀ k a, areas !! k = Some a → area_type a ≠ type.
Proof.
  induction areas as [|a areas IH]; cbn; [done|].
  destruct (String.eqb_spec (area_type a) type) as [Heq|Hne]; [done|].
  destruct (first_area type areas) as [j'|]; [done|].
  intros _ [|k] b; cbn; [by intros [= <-] | by apply IH].
Qed.

Lemma first_window_area_spec type ws i j :
  first_window_area type ws = Some (i, j) →
  ∃ areas, ws !! i = Some areas ∧ first_area type areas = Some j ∧
  ∀ k earlier, (k < i)%nat → ws !! k = Some earlier →
               first_area type earlier = None.
Proof.
  revert i. induction ws as [|areas ws IH]; intros i; cbn; [done|].
  destruct (first_area type areas) as [j0|] eqn:Hfirst.
  - intros [= <- <-]. exists areas. repeat split; [done|]. intros; lia.
  - destruct (first_window_area type ws) as [[i' j']|]; [|done].
    cbn. intros [= <- <-]. destruct (IH i' eq_refl) as (ar & Hl & Hf & Hm).
    exists ar. repeat split; [done..|]. intros [|k] earlier Hk; cbn.
    + by intros [= <-].
    + apply Hm. lia.
Qed.

(** X12.  When no text editor is open and the host refuses to open the
    preferences window, the log viewer falls back on the first 3D view,
    in window order: that area, which was a [VIEW_3D], becomes a
    [TEXT_EDITOR] showing the new text, and it is the only area
    changed.  With no 3D view either, the text is created and shown
    nowhere.  The viewer returns [FINISHED] in both cases. *)
Theorem view_log_falls_back_on_3d_view
    (userpref_show : ST Desk unit) (d : Desk) :
  first_window_area "TEXT_EDITOR" (windows (desk_world d)) = None →
  (∀ d1, ∃ e, userpref_show d1 = (Raise e, d1)) →
  let d' := exec (FAL_OT_ViewLog_execute userpref_show) d in
  eval (FAL_OT_ViewLog_execute userpref_show) d = Ok FINISHED ∧
  texts d' =
    texts d ++ [("FAL_Installation_Log.txt", log_text_body (desk_world d))] ∧
  match first_window_area "VIEW_3D" (windows (desk_world d)) with
  | Some (i, j) =>
      type_at i j (desk_world d) = Some "VIEW_3D" ∧
      type_at i j (desk_world d') = Some "TEXT_EDITOR" ∧
      shown d' = <[(i, j) := length (texts d)]> (shown d) ∧
      ∀ i' j', (i', j') ≠ (i, j) →
               type_at i' j' (desk_world d') = type_at i' j' (desk_world d)
  | None =>
      windows (desk_world d') = windows (desk_world d) ∧
      shown d' = shown d
  end.
Proof.
  cbv zeta. intros Hnone Hrefuse. unfold eval, exec.
  destruct (FAL_OT_ViewLog_execute userpref_show d) as [r d'] eqn:E.
  revert E. rewrite view_log_run.
  unfold _show_text_in_editor, for_first_area. desk_run.
  unfold with_log_text at 1. cbn [desk_world]. proj. rewrite Hnone.
  desk_run.
  destruct (Hrefuse (with_log_text d)) as [e ->]. desk_run.
  unfold with_log_text. cbn [desk_world]. proj.
  destruct (first_window_area "VIEW_3D" (windows (desk_world d)))
    as [[i j]|] eqn:Hv; desk_run; unfold modify; cbn [fst snd];
    intros [= <- <-]; cbn [fst snd texts shown desk_world]; proj;
    cbn [fst snd]; [|done].
  destruct (first_window_area_spec _ _ _ _ Hv) as (areas & Hl & Hf & _).
  destruct (first_area_spec _ _ _ Hf) as [(a & Hla & Hty) _].
  repeat split; try done.
  - unfold type_at. rewrite Hl. cbn. by rewrite Hla, <- Hty.
  - unfold type_at. proj. rewrite list_lookup_alter_eq, Hl. cbn.
    by rewrite list_lookup_alter_eq, Hla.
  - intros i' j' Hne. unfold type_at. proj.
    destruct (decide (i' = i)) as [->|Hi].
    + rewrite list_lookup_alter_eq, Hl. cbn.
      rewrite list_lookup_alter_ne; [done|]. congruence.
    + by rewrite list_lookup_alter_ne.
Qed.

Lemma view_log_falls_back_on_3d_view_witness :
  first_window_area "TEXT_EDITOR" (windows viewport_world) = None ∧
  (∀ d1, ∃ e, refuse_window d1 = (Raise e, d1)) ∧
  type_at 0 1
    (desk_world (exec (FAL_OT_ViewLog_execute refuse_window)
                      (desk_of viewport_world))) = Some "TEXT_EDITOR".
Proof.
  split; [vm_compute; reflexivity|].
  split; [intros d1; eexists; reflexivity|].
  pose proof (view_log_falls_back_on_3d_view refuse_window
                (desk_of viewport_world)) as H.
  destruct H as (_ & _ & H).
  - vm_compute; reflexivity.
  - intros d1; eexists; reflexivity.
  - change (first_window_area "VIEW_3D"
              (windows (desk_world (desk_of viewport_world))))
      with (Some (0, 1)%nat) in H.
    destruct H as (_ & Hty & _). exact Hty.
Defined.

(** X13.  When no text editor is open and the preferences window opens
    without bringing one, the log viewer shows the new text nowhere: no
    area displays it and no area is turned into a text editor, yet the
    viewer returns [FINISHED]. *)
Theorem view_log_shown_nowhere
    (userpref_show : ST Desk unit) (d : Desk) :
  first_window_area "TEXT_EDITOR" (windows (desk_world d)) = None →
  (∀ d1, first_window_area "TEXT_EDITOR" (windows (desk_world d1)) = None →
         ∃ d2, userpref_show d1 = (Ok tt, d2) ∧
               first_window_area "TEXT_EDITOR" (windows (desk_world d2))
                 = None ∧
               shown d2 = shown d1 ∧ texts d2 = texts d1 ∧
               ∀ i j, (i < length (windows (desk_world d1)))%nat →
                      type_at i j (desk_world d2) =
                      type_at i j (desk_world d1)) →
  let d' := exec (FAL_OT_ViewLog_execute userpref_show) d in
  eval (FAL_OT_ViewLog_execute userpref_show) d = Ok FINISHED ∧
  texts d' =
    texts d ++ [("FAL_Installation_Log.txt", log_text_body (desk_world d))] ∧
  shown d' = shown d ∧
  ∀ i j, (i < length (windows (desk_world d)))%nat →
         type_at i j (desk_world d') = type_at i j (desk_world d).
Proof.
  cbv zeta. intros Hnone Hopens. unfold eval, exec.
  destruct (FAL_OT_ViewLog_execute userpref_show d) as [r d'] eqn:E.
  revert E. rewrite view_log_run.
  unfold _show_text_in_editor, for_first_area. desk_run.
  unfold with_log_text at 1. cbn [desk_world]. proj. rewrite Hnone.
  desk_run.
  destruct (Hopens (with_log_text d)) as (d2 & -> & Hnone2 & Hs & Ht & Hty).
  { unfold with_log_text. cbn [desk_world]. by proj. }
  desk_run. rewrite Hnone2. desk_run. intros [= <- <-].
  cbn [fst snd]. rewrite Hs, Ht. by repeat split.
Qed.

Lemma first_window_area_app_none type ws extra :
  first_window_area type ws = None →
  first_window_area type extra = None →
  first_window_area type (ws ++ extra) = None.
Proof.
  intros Hws Hextra. induction ws as [|areas ws IH]; cbn in *; [done|].
  destruct (first_area type areas); [done|].
  destruct (first_window_area type ws); [done|]. by rewrite IH.
Qed.

(** The preferences window is no text editor and disturbs no other
    window. *)
Lemma open_preferences_window_brings_no_editor d1 :
  first_window_area "TEXT_EDITOR" (windows (desk_world d1)) = None →
  ∃ d2, open_preferences_window d1 = (Ok tt, d2) ∧
        first_window_area "TEXT_EDITOR" (windows (desk_world d2)) = None ∧
        shown d2 = shown d1 ∧ texts d2 = texts d1 ∧
        ∀ i j, (i < length (windows (desk_world d1)))%nat →
               type_at i j (desk_world d2) = type_at i j (desk_world d1).
Proof.
  intros Hnone. eexists. split; [reflexivity|].
  cbn [desk_world shown texts]. proj. repeat split.
  - by apply first_window_area_app_none.
  - intros i j Hi. unfold type_at. proj. by rewrite lookup_app_l.
Qed.

Lemma view_log_shown_nowhere_witness :
  first_window_area "TEXT_EDITOR" (windows viewport_world) = None ∧
  shown (exec (FAL_OT_ViewLog_execute open_preferences_window)
              (desk_of viewport_world)) = ∅.
Proof.
  split; [vm_compute; reflexivity|].
  destruct (view_log_shown_nowhere open_preferences_window
              (desk_of viewport_world)) as (_ & _ & Hs & _).
  - vm_compute; reflexivity.
  - exact open_preferences_window_brings_no_editor.
  - exact Hs.
Defined.

(** * The debug-log viewer *)

Lemma first_area_retyped areas j :
  first_area "TEXT_EDITOR" areas = None →
  first_area "VIEW_3D" areas = Some j →
  first_area "TEXT_EDITOR" (alter (retype "TEXT_EDITOR") j areas) = Some j.
Proof.
  revert j. induction areas as [|a areas IH]; intros j; cbn; [done|].
  destruct (String.eqb (area_type a) "TEXT_EDITOR") eqn:He; [done|].
  destruct (first_area "TEXT_EDITOR" areas) eqn:Hn; [done|]. intros _.
  destruct (String.eqb (area_type a) "VIEW_3D").
  - by intros [= <-].
  - destruct (first_area "VIEW_3D" areas) as [j'|]; [|done].
    intros [= <-]. cbn. rewrite He. by rewrite (IH j').
Qed.

Lemma first_area_make_room areas :
  first_area "TEXT_EDITOR" (make_room_for_text areas) =
  match first_area "TEXT_EDITOR" areas with
  | Some j => Some j
  | None => first_area "VIEW_3D" areas
  end.
Proof.
  unfold make_room_for_text.
  destruct (first_area "TEXT_EDITOR" areas) as [j|] eqn:He; [done|].
  destruct (first_area "VIEW_3D" areas) as [j|] eqn:Hv; [|done].
  by apply first_area_retyped.
Qed.

Lemma alter_middle {A} (f : A → A) (pre : list A) (x : A) (post : list A) :
  alter f (length pre) (pre ++ x :: post) = pre ++ f x :: post.
Proof. induction pre as [|y pre IH]; cbn; [done | by rewrite IH]. Qed.

Lemma assign_area_type_run pos type d :
  assign_area_type pos type d =
  (Ok tt,
   mkDesk (with_windows (alter (alter (retype type) pos.2) pos.1)
             (desk_world d))
          (texts d) (shown d)).
Proof. reflexivity. Qed.

(** The loop over the windows, from any window on. *)
Lemma show_in_each_window_run text ws :
  ∀ pre d, windows (desk_world d) = pre ++ ws →
  ∃ d', show_in_each_window text (length pre) ws d = (Ok tt, d') ∧
        windows (desk_world d') = pre ++ map make_room_for_text ws ∧
        shown d' = shown_in_each text (length pre) ws (shown d) ∧
        texts d' = texts d ∧
        scene (desk_world d') = scene (desk_world d) ∧
        events (desk_world d') = events (desk_world d) ∧
        reports (desk_world d') = reports (desk_world d).
Proof.
  induction ws as [|areas ws IH]; intros pre d Hw.
  - exists d. cbn. by rewrite Hw.
  - cbn [show_in_each_window shown_in_each map]. rewrite run_bind.
    rewrite first_area_make_room.
    unfold show_in_window.
    destruct (first_area "TEXT_EDITOR" areas) as [j|] eqn:He.
    + assert (make_room_for_text areas = areas) as Hroom
        by (unfold make_room_for_text; by rewrite He).
      desk_run.
      destruct (IH (pre ++ [areas])
                  (mkDesk (desk_world d) (texts d)
                     (<[(length pre, j) := text]> (shown d))))
        as (d' & Hrun & Hwin & Hsh & Hrest).
      { cbn. by rewrite <- app_assoc. }
      rewrite length_app, Nat.add_1_r in Hrun, Hsh.
      exists d'. rewrite Hrun, Hwin, Hsh, Hroom, <- app_assoc.
      destruct Hrest as (? & ? & ? & ?). by repeat split.
    + destruct (first_area "VIEW_3D" areas) as [j|] eqn:Hv.
      * assert (make_room_for_text areas =
                alter (retype "TEXT_EDITOR") j areas) as Hroom
          by (unfold make_room_for_text; by rewrite He, Hv).
        desk_run. rewrite assign_area_type_run. desk_run. cbn [fst snd].
        destruct (IH (pre ++ [alter (retype "TEXT_EDITOR") j areas])
                    (mkDesk
                       (with_windows
                          (alter (alter (retype "TEXT_EDITOR") j) (length pre))
                          (desk_world d))
                       (texts d)
                       (<[(length pre, j) := text]> (shown d))))
          as (d' & Hrun & Hwin & Hsh & Hrest).
        { cbn [desk_world]. proj. rewrite Hw, alter_middle.
          by rewrite <- app_assoc. }
        rewrite length_app, Nat.add_1_r in Hrun, Hsh.
        exists d'. rewrite Hrun, Hwin, Hsh, Hroom, <- app_assoc.
        destruct Hrest as (? & ? & ? & ?). by repeat split.
      * assert (make_room_for_text areas = areas) as Hroom
          by (unfold make_room_for_text; by rewrite He, Hv).
        desk_run.
        destruct (IH (pre ++ [areas]) d) as (d' & Hrun & Hwin & Hsh & Hrest).
        { by rewrite <- app_assoc. }
        rewrite length_app, Nat.add_1_r in Hrun, Hsh.
        exists d'. rewrite Hrun, Hwin, Hsh, Hroom, <- app_assoc.
        destruct Hrest as (? & ? & ? & ?). by repeat split.
Qed.

Lemma truthy_append a b : truthy b = true → truthy (a +:+ b) = true.
Proof. destruct a; [done|]. by destruct b. Qed.

Lemma shown_in_each_before text ws :
  ∀ i sh k j, (k < i)%nat →
  shown_in_each text i ws sh !! (k, j) = sh !! (k, j).
Proof.
  induction ws as [|areas ws IH]; intros i sh k j Hk; cbn; [done|].
  rewrite IH by lia.
  destruct (first_area _ _); [|done].
  rewrite lookup_insert_ne; [done|]. intros [= ]. lia.
Qed.

Lemma shown_in_each_at text ws :
  ∀ i sh k areas j,
  ws !! k = Some areas →
  first_area "TEXT_EDITOR" (make_room_for_text areas) = Some j →
  shown_in_each text i ws sh !! ((i + k)%nat, j) = Some text.
Proof.
  induction ws as [|areas0 ws IH]; intros i sh k areas j; cbn; [done|].
  destruct k as [|k]; cbn.
  - intros [= ->] ->. rewrite shown_in_each_before by lia.
    by rewrite Nat.add_0_r, lookup_insert_eq.
  - intros Hl Hf. rewrite <- Nat.add_succ_comm. by eapply IH.
Qed.

Lemma view_debug_log_run d :
  ∃ d', FAL_OT_ViewDebugLog_execute d = (Ok FINISHED, d') ∧
        texts d' =
          texts d ++
          [("FAL_Debug_Log.txt",
            fal_debug_log (scene (desk_world d)) +:+ LF +:+
            "[DEBUG] View debug log operator executed")] ∧
        windows (desk_world d') =
          map make_room_for_text (windows (desk_world d)) ∧
        shown d' =
          shown_in_each (length (texts d)) 0 (windows (desk_world d))
            (shown d) ∧
        installation_state (desk_world d') =
          installation_state (desk_world d) ∧
        events (desk_world d') = events (desk_world d).
Proof.
  unfold FAL_OT_ViewDebugLog_execute. desk_run. proj.
  rewrite hasattr_fal_debug_log, alter_last. cbn [andb fst snd].
  cbn [debug_line scene_set_debug_log fal_debug_log].
  rewrite truthy_append by done.
  match goal with
  | |- context [show_in_each_window ?t 0 ?ws ?d0] =>
      destruct (show_in_each_window_run t ws [] d0 eq_refl)
        as (d' & Hrun & Hwin & Hsh & Ht & Hsc & Hev & _)
  end.
  cbn [length app] in Hrun, Hwin, Hsh. rewrite Hrun.
  exists d'. split; [done|].
  rewrite Ht, Hwin, Hsh, Hev. unfold installation_state. rewrite Hsc.
  by repeat split.
Qed.

(** X14.  The debug-log viewer always returns [FINISHED] and creates one
    new text.  The text is never the placeholder: it holds the debug
    log, ending with the line that the operator has just logged.  In
    every window the text is shown in the first text editor that the
    window has once room is made, and the installation state is not
    touched. *)
Theorem view_debug_log_shows_log (d : Desk) :
  let d' := exec FAL_OT_ViewDebugLog_execute d in
  eval FAL_OT_ViewDebugLog_execute d = Ok FINISHED ∧
  texts d' =
    texts d ++
    [("FAL_Debug_Log.txt",
      fal_debug_log (scene (desk_world d)) +:+ LF +:+
      "[DEBUG] View debug log operator executed")] ∧
  windows (desk_world d') = map make_room_for_text (windows (desk_world d)) ∧
  (∀ i areas j,
     windows (desk_world d') !! i = Some areas →
     first_area "TEXT_EDITOR" areas = Some j →
     shown d' !! (i, j) = Some (length (texts d))) ∧
  installation_state (desk_world d') = installation_state (desk_world d).
Proof.
  cbv zeta. unfold eval, exec.
  destruct (view_debug_log_run d) as (d' & -> & Ht & Hwin & Hsh & Hst & _).
  cbn [fst snd]. rewrite Ht, Hwin, Hsh, Hst. repeat split.
  intros i areas j Hl Hf. rewrite list_lookup_fmap in Hl.
  destruct (windows (desk_world d) !! i) as [areas0|] eqn:Hl0; [|done].
  injection Hl as <-.
  by apply (shown_in_each_at _ _ 0%nat _ i areas0 j).
Qed.

Lemma count_type_cons type a areas :
  count_type type (a :: areas) =
  ((if String.eqb (area_type a) type then 1 else 0)
   + count_type type areas)%nat.
Proof.
  unfold count_type.
  destruct (String.eqb_spec (area_type a) type).
  - by rewrite filter_cons_True.
  - by rewrite filter_cons_False.
Qed.

Lemma count_type_none type areas :
  first_area type areas = None → count_type type areas = 0%nat.
Proof.
  induction areas as [|a areas IH]; [done|].
  rewrite count_type_cons. cbn [first_area].
  destruct (String.eqb (area_type a) type); [done|].
  destruct (first_area type areas); [done|]. intros _. by rewrite IH.
Qed.

Lemma alter_head {A} (f : A → A) x (l : list A) :
  alter f 0%nat (x :: l) = f x :: l.
Proof. reflexivity. Qed.

Lemma alter_tail {A} (f : A → A) x (l : list A) j :
  alter f (S j) (x :: l) = x :: alter f j l.
Proof. reflexivity. Qed.

Lemma count_view3d_retyped areas j :
  first_area "VIEW_3D" areas = Some j →
  S (count_type "VIEW_3D" (alter (retype "TEXT_EDITOR") j areas)) =
  count_type "VIEW_3D" areas.
Proof.
  revert j. induction areas as [|a areas IH]; intros j; [done|].
  cbn [first_area].
  destruct (String.eqb (area_type a) "VIEW_3D") eqn:Hv.
  - intros [= <-]. rewrite alter_head, !count_type_cons, Hv. by cbn.
  - destruct (first_area "VIEW_3D" areas) as [j'|]; [|done].
    intros [= <-]. rewrite alter_tail, !count_type_cons, Hv.
    cbn [Nat.add]. by apply IH.
Qed.

Lemma count_editor_retyped areas j :
  first_area "TEXT_EDITOR" areas = None →
  first_area "VIEW_3D" areas = Some j →
  count_type "TEXT_EDITOR" (alter (retype "TEXT_EDITOR") j areas) = 1%nat.
Proof.
  revert j. induction areas as [|a areas IH]; intros j; [done|].
  cbn [first_area].
  destruct (String.eqb (area_type a) "TEXT_EDITOR") eqn:He; [done|].
  destruct (first_area "TEXT_EDITOR" areas) eqn:Hn; [done|]. intros _.
  destruct (String.eqb (area_type a) "VIEW_3D") eqn:Hv.
  - intros [= <-]. rewrite alter_head, count_type_cons. cbn.
    by rewrite count_type_none.
  - destruct (first_area "VIEW_3D" areas) as [j'|]; [|done].
    intros [= <-]. rewrite alter_tail, count_type_cons, He.
    cbn [Nat.add]. by apply IH.
Qed.

(** X15.  The debug-log viewer makes room in every window, not in one:
    each window that has no text editor but has a 3D view loses its
    first 3D view, which becomes the window's only text editor, and
    keeps its number of areas; a window that has a text editor keeps
    all its areas as they are. *)
Theorem view_debug_log_takes_a_3d_view_per_window
    (d : Desk) (i : nat) (areas : list Area) :
  windows (desk_world d) !! i = Some areas →
  let d' := exec FAL_OT_ViewDebugLog_execute d in
  ∃ areas', windows (desk_world d') !! i = Some areas' ∧
    length areas' = length areas ∧
    (is_Some (first_area "TEXT_EDITOR" areas) → areas' = areas) ∧
    (first_area "TEXT_EDITOR" areas = None →
     is_Some (first_area "VIEW_3D" areas) →
     S (count_type "VIEW_3D" areas') = count_type "VIEW_3D" areas ∧
     count_type "TEXT_EDITOR" areas' = 1%nat).
Proof.
  cbv zeta. intros Hl. unfold exec.
  destruct (view_debug_log_run d) as (d' & -> & _ & Hwin & _).
  cbn [snd]. rewrite Hwin, list_lookup_fmap, Hl. cbn.
  eexists. split; [done|]. unfold make_room_for_text.
  destruct (first_area "TEXT_EDITOR" areas) as [j|] eqn:He.
  - split; [done|]. split; [done|]. discriminate.
  - destruct (first_area "VIEW_3D" areas) as [j|] eqn:Hv.
    + split; [by rewrite length_alter|]. split; [by intros [? ?]|].
      intros _ _. split.
      * by apply count_view3d_retyped.
      * by apply count_editor_retyped.
    + split; [done|]. split; [done|]. by intros _ [? ?].
Qed.

Lemma view_debug_log_takes_a_3d_view_per_window_witness :
  windows (desk_world (desk_of viewport_world)) !! 1%nat =
    Some [mkArea "VIEW_3D" 0; mkArea "OUTLINER" 0] ∧
  ∃ areas',
    windows (desk_world (exec FAL_OT_ViewDebugLog_execute
                              (desk_of viewport_world))) !! 1%nat =
      Some areas' ∧
    S (count_type "VIEW_3D" areas') = 1%nat.
Proof.
  split; [vm_compute; reflexivity|].
  destruct (view_debug_log_takes_a_3d_view_per_window
              (desk_of viewport_world) 1
              [mkArea "VIEW_3D" 0; mkArea "OUTLINER" 0])
    as (areas' & Hl & _ & _ & Hcount); [vm_compute; reflexivity|].
  exists areas'. split; [exact Hl|].
  destruct Hcount as [Hv _];
    [vm_compute; reflexivity | vm_compute; eexists; reflexivity |].
  rewrite Hv. vm_compute. reflexivity.
Defined.

(** * The generate operator *)

Section GenerateImageFacts.
Context {Blend Obj BMesh : Type}.
Variable obj_type : Obj → Blend → string.
Variable object_mode_set : string → ST Blend unit.
Variable from_edit_mesh : Obj → ST Blend BMesh.
Variable remove_doubles : BMesh → Q → ST Blend unit.
Variable update_edit_mesh : Obj → ST Blend unit.
Variable object_origin_set : string → string → ST Blend unit.
Variable object_transform_apply : bool → bool → bool → ST Blend unit.
Variable assign_location_z : Obj → Q → ST Blend unit.
Variable _generate_image : ST (World * Blend) (option string).
Variable create_image_plane : string → ST (World * Blend) Obj.

Let execute : ST (World * Blend) op_result :=
  FAL_OT_GenerateImage_execute Blend Obj BMesh obj_type object_mode_set
    from_edit_mesh remove_doubles update_edit_mesh object_origin_set
    object_transform_apply assign_location_z _generate_image
    create_image_plane.

Let process (obj : Obj) : ST (World * Blend) unit :=
  in_blend Blend
    (process_mesh Blend Obj BMesh obj_type object_mode_set from_edit_mesh
       remove_doubles update_edit_mesh object_origin_set
       object_transform_apply assign_location_z obj).

Let cancelled_with (e : exn) (s : World * Blend)
    : result op_result * (World * Blend) :=
  (Ok CANCELLED,
   (error_logged ("Error during image generation and processing: "
                  +:+ exn_str e) s.1, s.2)).

(** The operator, by the outcome of its three steps. *)
Lemma generate_image_run s :
  execute s =
  match _generate_image s with
  | (Raise e, s1) => cancelled_with e s1
  | (Ok image_path, s1) =>
      if falsy_path image_path then (Ok CANCELLED, s1)
      else
        match create_image_plane (default "" image_path) s1 with
        | (Raise e, s2) => cancelled_with e s2
        | (Ok obj, s2) =>
            match process obj s2 with
            | (Raise e, s3) => cancelled_with e s3
            | (Ok _, s3) => (Ok FINISHED, s3)
            end
        end
  end.
Proof.
  unfold execute, process, cancelled_with, FAL_OT_GenerateImage_execute.
  rewrite run_try_except, run_bind.
  destruct (_generate_image s) as [[image_path|e] s1].
  - destruct (falsy_path image_path); [done|]. rewrite run_bind.
    destruct (create_image_plane _ s1) as [[obj|e] s2].
    + rewrite run_bind.
      destruct (in_blend Blend _ s2) as [[[]|e] s3]; [done|].
      cbn [any_exception]; rewrite run_bind; unfold in_world; cbn beta;
        by rewrite log_error_run.
    + cbn [any_exception]; rewrite run_bind; unfold in_world; cbn beta;
        by rewrite log_error_run.
  - cbn [any_exception]; rewrite run_bind; unfold in_world; cbn beta;
        by rewrite log_error_run.
Qed.

(** X16.  The generate operator never lets an exception out.  It
    returns [FINISHED] exactly when the image was generated with a
    non-empty path, the plane was created and the mesh was processed,
    each without raising.  When one of the three steps raises it logs
    the error, shows it in the status line and returns [CANCELLED],
    keeping whatever the steps had changed up to then; when no image
    path comes back it returns [CANCELLED] without logging or creating
    anything. *)
Theorem generate_image_never_raises (s : World * Blend) :
  (eval execute s = Ok FINISHED ∨ eval execute s = Ok CANCELLED) ∧
  (eval execute s = Ok FINISHED ↔
   ∃ path s1 obj s2,
     _generate_image s = (Ok (Some path), s1) ∧ path ≠ "" ∧
     create_image_plane path s1 = (Ok obj, s2) ∧
     eval (process obj) s2 = Ok tt) ∧
  (∀ image_path s1,
     _generate_image s = (Ok image_path, s1) →
     falsy_path image_path = true →
     execute s = (Ok CANCELLED, s1)) ∧
  (∀ e s1,
     _generate_image s = (Raise e, s1) →
     execute s =
       (Ok CANCELLED,
        (error_logged ("Error during image generation and processing: "
                       +:+ exn_str e) s1.1, s1.2))) ∧
  (∀ path s1 e s2,
     _generate_image s = (Ok (Some path), s1) → path ≠ "" →
     create_image_plane path s1 = (Raise e, s2) →
     execute s =
       (Ok CANCELLED,
        (error_logged ("Error during image generation and processing: "
                       +:+ exn_str e) s2.1, s2.2))) ∧
  (∀ path s1 obj s2 e s3,
     _generate_image s = (Ok (Some path), s1) → path ≠ "" →
     create_image_plane path s1 = (Ok obj, s2) →
     process obj s2 = (Raise e, s3) →
     execute s =
       (Ok CANCELLED,
        (error_logged ("Error during image generation and processing: "
                       +:+ exn_str e) s3.1, s3.2))).
Proof.
  assert (∀ path, falsy_path (Some path) = false ↔ path ≠ "") as Hpath.
  { intros path. unfold falsy_path, truthy. rewrite negb_involutive.
    by rewrite String.eqb_neq. }
  unfold eval. rewrite generate_image_run. unfold cancelled_with.
  destruct (_generate_image s) as [[image_path|e] s1] eqn:Hgen.
  - destruct (falsy_path image_path) eqn:Hfalsy.
    + split; [by right|]. split; [|split; [|split; [|split]]].
      * split; [done|].
        intros (path & s1' & obj & s2 & [= -> ->] & Hne & _).
        apply Hpath in Hne. congruence.
      * by intros ? ? [= <- <-].
      * done.
      * intros path s1' e s2 [= -> ->] Hne. apply Hpath in Hne. congruence.
      * intros path s1' obj s2 e s3 [= -> ->] Hne.
        apply Hpath in Hne. congruence.
    + destruct image_path as [path|]; [|done].
      change (default "" (Some path)) with path.
      apply Hpath in Hfalsy.
      destruct (create_image_plane path s1) as [[obj|e] s2] eqn:Hplane.
      * destruct (process obj s2) as [[[]|e] s3] eqn:Hproc.
        -- split; [by left|]. split; [|split; [|split; [|split]]].
           ++ split; [|done]. intros _. exists path, s1, obj, s2.
              by rewrite Hproc.
           ++ intros ? ? [= <- <-] Hf. apply Hpath in Hfalsy. congruence.
           ++ done.
           ++ intros ? ? ? ? [= <- <-] _ Hp. by rewrite Hplane in Hp.
           ++ intros ? ? ? ? ? ? [= <- <-] _ Hp Hr. rewrite Hplane in Hp.
              injection Hp as <- <-. by rewrite Hproc in Hr.
        -- split; [by right|]. split; [|split; [|split; [|split]]].
           ++ split; [done|].
              intros (path' & s1' & obj' & s2' & [= <- <-] & _ & Hp & Hr).
              rewrite Hplane in Hp. injection Hp as <- <-.
              by rewrite Hproc in Hr.
           ++ intros ? ? [= <- <-] Hf. apply Hpath in Hfalsy. congruence.
           ++ done.
           ++ intros ? ? ? ? [= <- <-] _ Hp. by rewrite Hplane in Hp.
           ++ intros ? ? ? ? ? ? [= <- <-] _ Hp Hr. rewrite Hplane in Hp.
              injection Hp as <- <-. rewrite Hproc in Hr.
              by injection Hr as <- <-.
      * split; [by right|]. split; [|split; [|split; [|split]]].
        -- split; [done|].
           intros (path' & s1' & obj' & s2' & [= <- <-] & _ & Hp & _).
           by rewrite Hplane in Hp.
        -- intros ? ? [= <- <-] Hf. apply Hpath in Hfalsy. congruence.
        -- done.
        -- intros ? ? ? ? [= <- <-] _ Hp. rewrite Hplane in Hp.
           by injection Hp as <- <-.
        -- intros ? ? ? ? ? ? [= <- <-] _ Hp. by rewrite Hplane in Hp.
  - split; [by right|]. split; [|split; [|split; [|split]]].
    + split; [done|]. by intros (? & ? & ? & ? & [= ] & _).
    + done.
    + by intros ? ? [= <- <-].
    + done.
    + done.
Qed.

End GenerateImageFacts.

Section GenerateImageAsWritten.
Context {Blend Obj BMesh : Type}.
Variable obj_type : Obj → Blend → string.
Variable object_mode_set : string → ST Blend unit.
Variable from_edit_mesh : Obj → ST Blend BMesh.
Variable remove_doubles : BMesh → Q → ST Blend unit.
Variable update_edit_mesh : Obj → ST Blend unit.
Variable object_origin_set : string → string → ST Blend unit.
Variable object_transform_apply : bool → bool → bool → ST Blend unit.
Variable assign_location_z : Obj → Q → ST Blend unit.
Variable create_image_plane : string → ST (World * Blend) Obj.

(** X17.  As the file stands, with no [_generate_image] on the operator
    class, the generate operator cannot succeed: from every state it
    returns [CANCELLED], the status line shows the attribute error, and
    the 3D scene and the installation state are as they were. *)
Theorem generate_image_cancels_as_written (s : World * Blend) :
  let run :=
    FAL_OT_GenerateImage_execute Blend Obj BMesh obj_type object_mode_set
      from_edit_mesh remove_doubles update_edit_mesh object_origin_set
      object_transform_apply assign_location_z
      (missing_method "_generate_image") create_image_plane in
  eval run s = Ok CANCELLED ∧
  (exec run s).2 = s.2 ∧
  fal_status_message (scene (exec run s).1) =
    "ERROR: Error during image generation and processing: " +:+
    "'FAL_OT_GenerateImage' object has no attribute '_generate_image'" ∧
  installation_state (exec run s).1 = installation_state s.1.
Proof.
  cbv zeta. unfold eval, exec. rewrite generate_image_run.
  unfold missing_method, raise. by cbn.
Qed.

End GenerateImageAsWritten.

(** * History is only added to *)

Lemma append_empty (s : string) : s +:+ "" = s.
Proof.
  induction s as [|x s IH]; [done|].
  change (String x (s +:+ "") = String x s). by rewrite IH.
Qed.

Lemma history_kept_refl w : history_kept w w.
Proof.
  repeat split; try done. exists "". by rewrite append_empty.
Qed.

Lemma history_kept_trans w1 w2 w3 :
  history_kept w1 w2 → history_kept w2 w3 → history_kept w1 w3.
Proof.
  intros ([l1 Hd1] & Ho1 & He1 & Hr1 & Ht1) ([l2 Hd2] & Ho2 & He2 & Hr2 & Ht2).
  repeat split; try (by etrans); try lia.
  exists (l1 +:+ l2). by rewrite Hd2, Hd1, append_assoc.
Qed.

Section KeepsHistory.
Context {A B : Type}.

Lemma keeps_ret (a : A) : keeps_history (mret a : M A).
Proof. intros w. apply history_kept_refl. Qed.

Lemma keeps_raise (e : exn) : keeps_history (raise e : M A).
Proof. intros w. apply history_kept_refl. Qed.

Lemma keeps_host (r : result A) : keeps_history (host r : M A).
Proof. intros w. apply history_kept_refl. Qed.

Lemma keeps_get (f : World → A) : keeps_history (get f).
Proof. intros w. apply history_kept_refl. Qed.

Lemma keeps_bind (m : M A) (k : A → M B) :
  keeps_history m → (∀ a, keeps_history (k a)) → keeps_history (m ≫= k).
Proof.
  intros Hm Hk w. unfold exec. rewrite run_bind.
  specialize (Hm w). unfold exec in Hm.
  destruct (m w) as [[a|e] w1]; cbn [snd] in *; [|done].
  eapply history_kept_trans; [done|]. apply (Hk a w1).
Qed.

Lemma keeps_try_except (body : M A) catches (handler : exn → M A) :
  keeps_history body → (∀ e, keeps_history (handler e)) →
  keeps_history (try_except body catches handler).
Proof.
  intros Hb Hh w. unfold exec. rewrite run_try_except.
  specialize (Hb w). unfold exec in Hb.
  destruct (body w) as [[a|e] w1]; cbn [snd] in *; [done|].
  destruct (catches e); [|done].
  eapply history_kept_trans; [done|]. apply (Hh e w1).
Qed.
End KeepsHistory.

Lemma keeps_modify (f : World → World) :
  (∀ w, history_kept w (f w)) → keeps_history (modify f).
Proof. intros Hf w. apply Hf. Qed.

Lemma scene_change_kept (f : Scene → Scene) w :
  (∀ s, fal_debug_log (f s) = fal_debug_log s) →
  history_kept w (with_scene f w).
Proof.
  intros Hf. repeat split; try done. exists "".
  cbn. by rewrite Hf, append_empty.
Qed.

Lemma debug_line_kept tag message w :
  history_kept w (with_scene (debug_line tag message) w).
Proof. repeat split; try done. by eexists. Qed.

Lemma stdout_line_kept line w :
  history_kept w (with_stdout (λ out, out ++ [line]) w).
Proof.
  repeat split; try done; [|by apply prefix_app_r].
  exists "". by rewrite append_empty.
Qed.

Lemma keeps_log_debug message : keeps_history (log_debug message).
Proof.
  intros w. unfold exec. rewrite log_debug_run. cbn [snd].
  eapply history_kept_trans; [apply stdout_line_kept|].
  apply debug_line_kept.
Qed.

Lemma keeps_log_info message : keeps_history (log_info message).
Proof.
  intros w. unfold exec. rewrite log_info_run. cbn [snd].
  eapply history_kept_trans; [apply stdout_line_kept|].
  eapply history_kept_trans; [apply debug_line_kept|].
  by apply scene_change_kept.
Qed.

Lemma keeps_log_error message : keeps_history (log_error message).
Proof.
  intros w. unfold exec. rewrite log_error_run. cbn [snd].
  eapply history_kept_trans; [apply stdout_line_kept|].
  eapply history_kept_trans; [apply debug_line_kept|].
  by apply scene_change_kept.
Qed.

Lemma keeps_assign_install_log v : keeps_history (assign_install_log v).
Proof.
  apply keeps_modify. intros w.
  eapply history_kept_trans; [by apply (scene_change_kept
                                          (scene_set_install_log v))|].
  repeat split; try done; [|by apply prefix_app_r].
  exists "". by rewrite append_empty.
Qed.

Lemma keeps_emit e : keeps_history (emit e).
Proof.
  apply keeps_modify. intros w.
  repeat split; try done; [|by apply prefix_app_r].
  exists "". by rewrite append_empty.
Qed.

Lemma keeps_report level message : keeps_history (report level message).
Proof.
  apply keeps_modify. intros w.
  repeat split; try done; [|by apply prefix_app_r].
  exists "". by rewrite append_empty.
Qed.

Lemma keeps_scene_assignments :
  (∀ v, keeps_history (assign_install_success v)) ∧
  (∀ v, keeps_history (assign_install_in_progress v)) ∧
  (∀ v, keeps_history (assign_install_progress v)) ∧
  (∀ v, keeps_history (assign_install_pid v)) ∧
  (∀ v, keeps_history (assign_status_message v)).
Proof.
  (split; [|split; [|split; [|split]]]); intros ?; apply keeps_modify;
    intros w; by apply scene_change_kept.
Qed.

Lemma keeps_other_fields :
  keeps_history redraw_view3d ∧
  keeps_history (modify (with_threads S)) ∧
  (∀ b, keeps_history (modify (with_timer b))) ∧
  (∀ f, keeps_history (modify (with_environ f))) ∧
  (∀ f, keeps_history (modify (with_addons f))).
Proof.
  assert (∀ f : World → World,
    (∀ w, scene (f w) = scene w ∧ stdout (f w) = stdout w ∧
          events (f w) = events w ∧ reports (f w) = reports w ∧
          (threads_started w ≤ threads_started (f w))%nat) →
    keeps_history (modify f)) as Hfield.
  { intros f Hf. apply keeps_modify. intros w.
    destruct (Hf w) as (Hs & Ho & He & Hr & Ht).
    unfold history_kept. rewrite Hs, Ho, He, Hr.
    repeat split; try done. exists "". by rewrite append_empty. }
  split; [apply Hfield; intros w0; repeat split; cbn; lia|].
  split; [apply Hfield; intros w0; repeat split; cbn; lia|].
  split; [intros b; apply Hfield; intros w0; repeat split; cbn; lia|].
  split; intros f; apply Hfield; intros w0; repeat split; cbn; lia.
Qed.

(** Take a computation apart along its binds, handlers and branches. *)
Ltac history_step :=
  lazymatch goal with
  | |- keeps_history (_ ≫= _) => apply keeps_bind; [|intros ?]
  | |- keeps_history (try_except _ _ _) =>
      apply keeps_try_except; [|intros ?]
  | |- keeps_history (log_debug _) => apply keeps_log_debug
  | |- keeps_history (log_info _) => apply keeps_log_info
  | |- keeps_history (log_error _) => apply keeps_log_error
  | |- keeps_history (assign_install_log _) => apply keeps_assign_install_log
  | |- keeps_history (emit _) => apply keeps_emit
  | |- keeps_history (report _ _) => apply keeps_report
  | |- keeps_history (assign_install_success _) =>
      apply keeps_scene_assignments
  | |- keeps_history (assign_install_in_progress _) =>
      apply keeps_scene_assignments
  | |- keeps_history (assign_install_progress _) =>
      apply keeps_scene_assignments
  | |- keeps_history (assign_install_pid _) => apply keeps_scene_assignments
  | |- keeps_history (assign_status_message _) =>
      apply keeps_scene_assignments
  | |- keeps_history redraw_view3d => apply keeps_other_fields
  | |- keeps_history (modify _) => apply keeps_other_fields
  | |- keeps_history (mret _) => apply keeps_ret
  | |- keeps_history (raise _) => apply keeps_raise
  | |- keeps_history (host _) => apply keeps_host
  | |- keeps_history (get _) => apply keeps_get
  | |- keeps_history (scene_get _) => apply keeps_get
  | |- keeps_history (if ?b then _ else _) => destruct b
  | |- keeps_history (match ?x with _ => _ end) => destruct x
  end.

Ltac history := repeat history_step.

Lemma keeps_is_package_installed h : keeps_history (is_package_installed h).
Proof. unfold is_package_installed. history. Qed.

Lemma keeps_install_package : keeps_history install_package.
Proof. unfold install_package. history. Qed.

Lemma keeps_install_process h : keeps_history (_install_process h).
Proof. unfold _install_process, index0. cbv zeta. history. Qed.

Lemma keeps_monitor : keeps_history _monitor_installation.
Proof. unfold _monitor_installation, scene_get. history. Qed.

Lemma keeps_press_install : keeps_history FAL_OT_InstallPackage_execute.
Proof.
  unfold FAL_OT_InstallPackage_execute, scene_get. history.
  apply keeps_install_package.
Qed.

Lemma keeps_get_api_key name : keeps_history (get_api_key name).
Proof.
  unfold get_api_key, addon_preferences, prefs_api_key, environ_get.
  history.
Qed.

Lemma keeps_set_api_key name value : keeps_history (set_api_key name value).
Proof.
  unfold set_api_key, addon_preferences, assign_prefs_api_key, environ_set.
  history.
Qed.

Lemma keeps_update_api_key name :
  keeps_history (FAL_OT_UpdateAPIKey_execute name).
Proof.
  unfold FAL_OT_UpdateAPIKey_execute, scene_get. history.
  apply keeps_set_api_key.
Qed.

Lemma perform_keeps_history w op : history_kept w (perform w op).
Proof.
  destruct op; cbn [perform].
  - apply keeps_is_package_installed.
  - apply keeps_install_package.
  - apply keeps_install_process.
  - apply keeps_monitor.
  - apply keeps_press_install.
  - apply keeps_get_api_key.
  - apply keeps_set_api_key.
  - apply keeps_update_api_key.
Qed.

(** X18.  Whatever the functions of the add-on are called for, in
    whatever order and with whatever answers of the host, they only add
    to the debug log, to the console, to the events and to the reports:
    what was there stays as the beginning of what is there afterwards,
    and the count of started threads never goes down.  Nothing ever
    trims the debug log. *)
Theorem history_is_only_added_to (ops : list operation) (w : World) :
  history_kept w (foldl perform w ops).
Proof.
  revert w. induction ops as [|op ops IH]; intros w; cbn [foldl].
  - apply history_kept_refl.
  - eapply history_kept_trans; [apply perform_keeps_history | apply IH].
Qed.

(** * The panels *)

Lemma hasattr_fal_status_message : hasattr_scene "fal_status_message" = true.
Proof. reflexivity. Qed.

Lemma hasattr_fal_install_success :
  hasattr_scene "fal_install_success" = true.
Proof. reflexivity. Qed.

Lemma hasattr_fal_api_key_input : hasattr_scene "fal_api_key_input" = true.
Proof. reflexivity. Qed.

(** [get_api_key] returns, and leaves the installation state alone. *)
Lemma get_api_key_returns name w :
  ∃ key w', get_api_key name w = (Ok key, w') ∧
            installation_state w' = installation_state w.
Proof.
  pose proof (get_api_key_run name w) as Hr.
  destruct (get_api_key_frame name w) as (_ & _ & Hst & _).
  unfold eval in Hr. unfold exec in Hst.
  destruct (get_api_key name w) as [[key|e] w']; [|done].
  by exists key, w'.
Qed.

(** X19.  The panel of the package manager draws without raising
    whenever the import of the package either succeeds or fails with
    [ImportError].  It offers the install button exactly when the
    package is not installed and no installation is in progress, so
    never while a press would be turned away; the two log buttons and
    the update-key button are always there.  Drawing changes nothing of
    the installation state. *)
Theorem panel_offers_install_when_idle (h : Host) (name : string) (w : World) :
  (∀ e, import_fal h = Raise e → exn_cls e = ImportError) →
  ∃ ui, eval (FAL_PT_Panel_draw h name) w = Ok ui ∧
    offers "fal.install_package" ui =
      negb (is_ok (import_fal h)) &&
      negb (fal_install_in_progress (scene w)) ∧
    offers "fal.view_log" ui = true ∧
    offers "fal.view_debug_log" ui = true ∧
    offers "fal.update_api_key" ui = true ∧
    installation_state (exec (FAL_PT_Panel_draw h name) w) =
      installation_state w.
Proof.
  intros Himport. unfold eval, exec.
  destruct (FAL_PT_Panel_draw h name w) as [r w'] eqn:E.
  revert E. unfold FAL_PT_Panel_draw. cbv zeta. run.
  rewrite hasattr_fal_status_message, hasattr_fal_install_in_progress,
    hasattr_fal_install_success, hasattr_fal_install_log,
    hasattr_fal_api_key_input.
  cbn [andb negb]. rewrite is_package_installed_run.
  destruct (import_fal h) as [file|e] eqn:Himp.
  - run. proj.
    match goal with
    | |- context [get_api_key name ?w1] =>
        destruct (get_api_key_returns name w1) as (key & w2 & -> & Hst)
    end.
    run. intros [= <- <-]. eexists. split; [reflexivity|].
    cbn [fst snd]. rewrite Hst.
    destruct (truthy (fal_status_message (scene w)));
      destruct (fal_install_in_progress (scene w));
      destruct (truthy (fal_install_log (scene w)));
      destruct (truthy key); by cbn.
  - rewrite (bool_decide_eq_true_2 _ (Himport e eq_refl)). run. proj.
    match goal with
    | |- context [get_api_key name ?w1] =>
        destruct (get_api_key_returns name w1) as (key & w2 & -> & Hst)
    end.
    run. intros [= <- <-]. eexists. split; [reflexivity|].
    cbn [fst snd]. rewrite Hst.
    cbn [debug_line scene_set_debug_log fal_install_in_progress
         fal_status_message fal_install_log].
    destruct (truthy (fal_status_message (scene w)));
      destruct (fal_install_in_progress (scene w));
      destruct (truthy (fal_install_log (scene w)));
      destruct (truthy key); by cbn.
Qed.

Lemma panel_offers_install_when_idle_witness :
  (∀ e, import_fal host_success = Raise e → exn_cls e = ImportError) ∧
  ∃ ui, eval (FAL_PT_Panel_draw host_success "__main__") started_world
          = Ok ui ∧
        offers "fal.install_package" ui = false.
Proof.
  assert (∀ e, import_fal host_success = Raise e → exn_cls e = ImportError)
    as Himport by (intros e [= <-]; reflexivity).
  split; [exact Himport|].
  destruct (panel_offers_install_when_idle host_success "__main__"
              started_world Himport) as (ui & Hr & Hoffer & _).
  exists ui. split; [exact Hr|]. rewrite Hoffer. vm_compute. reflexivity.
Defined.


(** Run as a script the module is called [__main__] and has no entry. *)
Example main_panel_without_entry :
  FAL_PT_MainPanel_draw host_installed "__main__" fresh_world =
    (Raise (no_addon_entry "__main__"), fresh_world).
Proof. reflexivity. Qed.

